(** * percona-agent: a shallow embedding of the agent core

    The Go sources are embedded package by package: [Log] (log/relay.go),
    [Monitor] (mrms/monitor/instance.go), [Qan] (qan/manager.go),
    [Perfschema] (qan/perfschema/worker.go) and [Agent] (agent/agent.go).
    Goroutine loops are embedded as step functions over the branch of the
    [select] that fires; calls into collaborators that live outside these
    files (websocket client, MySQL connector, basedir, clock, logger) are
    recorded in a trace of effects, and their results are inputs of the step.

    Part I holds the definitions, Part II the theorems. *)

From Stdlib Require Import ZArith Floats.
From stdpp Require Import base gmap strings list fin_maps pretty.

Open Scope Z_scope.

(* ===================================================================== *)
(** * Part I: definitions                                                 *)
(* ===================================================================== *)

(** ** Go runtime notions shared by all packages *)
Module Go.

(** The result of running a piece of Go code: it returns, it panics (index
    out of range, nil dereference, explicit [panic]) or the goroutine blocks
    forever on a channel operation. *)
Inductive outcome (A : Type) : Type :=
| Ret (a : A)
| Panic (msg : string)
| Blocked (msg : string).
Arguments Ret {A} a.
Arguments Panic {A} msg.
Arguments Blocked {A} msg.

Definition bind {A B : Type} (c : outcome A) (k : A -> outcome B) : outcome B :=
  match c with
  | Ret a => k a
  | Panic msg => Panic msg
  | Blocked msg => Blocked msg
  end.

(** [int64] (and [int] on the 64-bit targets of the agent): two's complement
    wrap-around. *)
Definition wrap64 (z : Z) : Z := (z + 2 ^ 63) mod 2 ^ 64 - 2 ^ 63.
Definition add64 (a b : Z) : Z := wrap64 (a + b).
Definition sub64 (a b : Z) : Z := wrap64 (a - b).
Definition in_int64 (z : Z) : Prop := - 2 ^ 63 <= z < 2 ^ 63.

(** [time.Time] as nanoseconds since the Unix epoch; [Time.Unix()] is the
    number of whole seconds. *)
Definition Time : Type := Z.
Definition Unix (t : Time) : Z := t / 1000000000.
Definition After (t u : Time) : bool := u <? t.

(** [s[i] = x] and [s[i]] on a slice: out of range panics. *)
Definition slice_set {A : Type} (s : list A) (i : Z) (x : A) : outcome (list A) :=
  if (0 <=? i) && (i <? Z.of_nat (length s))
  then Ret (<[Z.to_nat i := x]> s)
  else Panic "index out of range".

Definition slice_get {A : Type} (s : list A) (i : Z) : outcome A :=
  if (0 <=? i) && (i <? Z.of_nat (length s))
  then match s !! Z.to_nat i with
       | Some x => Ret x
       | None => Panic "index out of range"
       end
  else Panic "index out of range".

(** [for i := i0; i < hi; i++ { body }], unrolled [n] times from [i0];
    callers pass [n = hi - i0]. *)
Fixpoint for_loop {St : Type} (n : nat) (i : Z) (body : Z -> St -> outcome St)
    (s : St) : outcome St :=
  match n with
  | O => Ret s
  | S n' => bind (body i s) (for_loop n' (i + 1) body)
  end.

Definition for_range {St : Type} (hi : Z) (body : Z -> St -> outcome St)
    (s : St) : outcome St :=
  for_loop (Z.to_nat hi) 0 body s.

(** [strings.Contains(s, sub)] *)
Fixpoint Contains (s sub : string) : bool :=
  if String.prefix sub s then true
  else match s with
       | EmptyString => false
       | String _ rest => Contains rest sub
       end.

(** [fmt.Sprintf("%d", z)] *)
Definition Sprintf_d (z : Z) : string := pretty z.

End Go.

Export Go.

(** Sequencing is written with the monad notation [x ← c; k]. *)
#[global] Instance outcome_bind : MBind outcome := fun A B k c => Go.bind c k.
#[global] Instance outcome_ret : MRet outcome := @Ret.

(** ** package pct: the error values of the agent *)
Module Pct.

(** The error types of package pct that the sources construct, and
    [ErrorString] for the errors made by [errors.New] and [fmt.Errorf] and
    for those returned by collaborators. *)
Inductive error : Type :=
| ServiceIsRunningError (Service : string)
| UnknownServiceError (Service : string)
| UnknownCmdError (Cmd : string)
| QueueFullError (Cmd Name : string) (Size : Z)
| CmdTimeoutError (Cmd : string)
| ErrorString (msg : string).

(** Modelled from the spec: the [Error()] methods of the pct error types are
    not among the sources. The spec gives the text of
    [ServiceIsRunningError]: the reply to a second StartService for qan has
    an error that contains "qan is running". The texts of the other pct
    errors are left to [other]. *)
Definition Error (other : error -> string) (e : error) : string :=
  match e with
  | ServiceIsRunningError service => service +:+ " is running"
  | ErrorString msg => msg
  | _ => other e
  end.

End Pct.

Export Pct.

(** ** package proto: commands and replies *)
Module Proto.

Record Cmd : Type := mkCmd {
  Id : Z;
  Ts : Time;
  User : string;
  Service : string;
  Cmd_ : string;
  Data : string
}.

Record Reply (D : Type) : Type := mkReply {
  reply_Id : Z;
  reply_Data : option D;
  reply_Errors : list error
}.
Arguments mkReply {D} _ _ _.
Arguments reply_Id {D} _.
Arguments reply_Data {D} _.
Arguments reply_Errors {D} _.

(** Modelled from the spec: [cmd.Reply(data, errs...)] of the protocol
    package makes the reply correlated to the command by its id; the errors
    are joined into the one [Error] string of the reply ([reply_Error]). *)
Definition Reply_to {D : Type} (cmd : Cmd) (data : option D) (errs : list error)
    : Reply D :=
  mkReply (Id cmd) data errs.

Definition reply_Error {D : Type} (other : error -> string) (r : Reply D)
    : string :=
  String.concat (String (Ascii.ascii_of_nat 10) EmptyString)
    (map (Error other) (reply_Errors r)).

End Proto.

(** ** package log: the log relay (log/relay.go) *)
Module Log.

(** [proto.LogEntry] *)
Record LogEntry : Type := mkLogEntry {
  Ts : Time;
  Level : Z;
  Service : string;
  Msg : string
}.

(** The websocket client the relay talks to. It lives outside the relay; the
    model remembers what was sent and holds a script with the results of the
    coming [Send] calls ([true]: the call returns an error; an exhausted
    script means the call succeeds). *)
Record Client : Type := mkClient {
  sent : list LogEntry;
  script : list bool
}.

Definition Send (c : Client) (e : LogEntry) : Client * option error :=
  match script c with
  | true :: rest => (mkClient (sent c) rest, Some (ErrorString "send failed"))
  | false :: rest => (mkClient (sent c ++ [e]) rest, None)
  | [] => (mkClient (sent c ++ [e]) [], None)
  end.

Record Status : Type := mkStatus {
  st_LogLevel : Z;
  st_LogFile : string;
  st_Connected : bool;
  st_Channel : Z;
  st_Buffers : Z
}.

(** The relay. [logger] is the file sink, if any, with the lines printed to
    it; [logChan] and [statusChan] hold what is queued on the channels;
    [reconnects] counts the [go r.connect()] started so far. *)
Record Relay : Type := mkRelay {
  client : option Client;
  connected : bool;
  logChan : list LogEntry;
  logLevel : Z;
  logger : option (list string);
  logFile : string;
  firstBuf : list (option LogEntry);
  firstBufSize : Z;
  secondBuf : list (option LogEntry);
  secondBufSize : Z;
  lost : Z;
  statusChan : list Status;
  offline : bool;
  reconnects : nat
}.

Definition set_client (c : Client) (r : Relay) : Relay :=
  mkRelay (Some c) (connected r) (logChan r) (logLevel r) (logger r) (logFile r)
    (firstBuf r) (firstBufSize r) (secondBuf r) (secondBufSize r) (lost r)
    (statusChan r) (offline r) (reconnects r).
Definition set_connected (b : bool) (r : Relay) : Relay :=
  mkRelay (client r) b (logChan r) (logLevel r) (logger r) (logFile r)
    (firstBuf r) (firstBufSize r) (secondBuf r) (secondBufSize r) (lost r)
    (statusChan r) (offline r) (reconnects r).
Definition set_logChan (q : list LogEntry) (r : Relay) : Relay :=
  mkRelay (client r) (connected r) q (logLevel r) (logger r) (logFile r)
    (firstBuf r) (firstBufSize r) (secondBuf r) (secondBufSize r) (lost r)
    (statusChan r) (offline r) (reconnects r).
Definition set_logger (l : option (list string)) (r : Relay) : Relay :=
  mkRelay (client r) (connected r) (logChan r) (logLevel r) l (logFile r)
    (firstBuf r) (firstBufSize r) (secondBuf r) (secondBufSize r) (lost r)
    (statusChan r) (offline r) (reconnects r).
Definition set_first (b : list (option LogEntry)) (n : Z) (r : Relay) : Relay :=
  mkRelay (client r) (connected r) (logChan r) (logLevel r) (logger r) (logFile r)
    b n (secondBuf r) (secondBufSize r) (lost r)
    (statusChan r) (offline r) (reconnects r).
Definition set_second (b : list (option LogEntry)) (n : Z) (r : Relay) : Relay :=
  mkRelay (client r) (connected r) (logChan r) (logLevel r) (logger r) (logFile r)
    (firstBuf r) (firstBufSize r) b n (lost r)
    (statusChan r) (offline r) (reconnects r).
Definition set_lost (n : Z) (r : Relay) : Relay :=
  mkRelay (client r) (connected r) (logChan r) (logLevel r) (logger r) (logFile r)
    (firstBuf r) (firstBufSize r) (secondBuf r) (secondBufSize r) n
    (statusChan r) (offline r) (reconnects r).
Definition set_statusChan (q : list Status) (r : Relay) : Relay :=
  mkRelay (client r) (connected r) (logChan r) (logLevel r) (logger r) (logFile r)
    (firstBuf r) (firstBufSize r) (secondBuf r) (secondBufSize r) (lost r)
    q (offline r) (reconnects r).
Definition add_reconnect (r : Relay) : Relay :=
  mkRelay (client r) (connected r) (logChan r) (logLevel r) (logger r) (logFile r)
    (firstBuf r) (firstBufSize r) (secondBuf r) (secondBufSize r) (lost r)
    (statusChan r) (offline r) (S (reconnects r)).

Section WithBufferSize.

(** [BUFFER_SIZE] is a constant of the package (10 in the source); the model
    takes it as a parameter, and [BUFFER_SIZE_source] is the source's value. *)
Variable BUFFER_SIZE : Z.

(** The log levels [proto.LOG_EMERGENCY], [proto.LOG_WARNING] and
    [proto.LOG_DEBUG] and the names [proto.LogLevelName] come from the
    protocol package. *)
Variable LOG_EMERGENCY LOG_WARNING LOG_DEBUG : Z.
Variable LogLevelName : Z -> string.

Definition NewRelay (c : option Client) (file : string) (level : Z) (off : bool)
    : Relay :=
  mkRelay c false [] level None file
    (replicate (Z.to_nat BUFFER_SIZE) None) 0
    (replicate (Z.to_nat BUFFER_SIZE) None) 0
    0 [] off 0.

Definition buffer (e : LogEntry) (r : Relay) : outcome Relay :=
  if firstBufSize r <? BUFFER_SIZE then
    b ← slice_set (firstBuf r) (firstBufSize r) (Some e);
    Ret (set_first b (add64 (firstBufSize r) 1) r)
  else if secondBufSize r <? BUFFER_SIZE then
    b ← slice_set (secondBuf r) (secondBufSize r) (Some e);
    Ret (set_second b (add64 (secondBufSize r) 1) r)
  else
    let r1 := set_lost (add64 (lost r) (secondBufSize r)) r in
    b ← for_range BUFFER_SIZE (fun i b => slice_set b i None) (secondBuf r1);
    b' ← slice_set b 0 (Some e);
    Ret (set_second b' 1 r1).

Definition send (entry : LogEntry) (bufferOnErr : bool) (r : Relay)
    : outcome (Relay * option error) :=
  match client r with
  | None => Panic "nil pointer dereference"
  | Some c =>
      let '(c', err) := Send c entry in
      let r1 := set_client c' r in
      match err with
      | Some msg =>
          if bufferOnErr
          then r2 ← buffer entry r1; Ret (r2, Some msg)
          else Ret (r1, Some msg)
      | None => Ret (r1, None)
      end
  end.

Definition resend_first (i : Z) (r : Relay) : outcome Relay :=
  slot ← slice_get (firstBuf r) i;
  match slot with
  | Some e =>
      '(r1, err) ← send e false r;
      match err with
      | None =>
          b ← slice_set (firstBuf r1) i None;
          Ret (set_first b (sub64 (firstBufSize r1) 1) r1)
      | Some _ => Ret r1
      end
  | None => Ret r
  end.

Definition resend_second (i : Z) (r : Relay) : outcome Relay :=
  slot ← slice_get (secondBuf r) i;
  match slot with
  | Some e =>
      '(r1, err) ← send e false r;
      match err with
      | None =>
          b ← slice_set (secondBuf r1) i None;
          Ret (set_second b (sub64 (secondBufSize r1) 1) r1)
      | Some _ => Ret r1
      end
  | None => Ret r
  end.

Definition lost_entry (now : Time) (n : Z) : LogEntry :=
  mkLogEntry now LOG_WARNING "log" ("Lost " +:+ Sprintf_d n +:+ " log entries").

(** [now] is the result of the [time.Now()] call that stamps the lost-count
    entry. *)
Definition resend (now : Time) (r : Relay) : outcome Relay :=
  r1 ← for_range BUFFER_SIZE resend_first r;
  r2 ← (if 0 <? lost r1
        then '(r', _) ← send (lost_entry now (lost r1)) false r1;
             Ret (set_lost 0 r')
        else Ret r1);
  for_range BUFFER_SIZE resend_second r2.

(** [r.logChan <- logEntry] on the relay's own channel of capacity
    [BUFFER_SIZE*3]. *)
Definition internal (now : Time) (msg : string) (r : Relay) : outcome Relay :=
  if Z.of_nat (length (logChan r)) <? BUFFER_SIZE * 3
  then Ret (set_logChan (logChan r ++ [mkLogEntry now LOG_WARNING "log" msg]) r)
  else Blocked "logChan is full".

Definition set_logLevel (l : Z) (r : Relay) : Relay :=
  mkRelay (client r) (connected r) (logChan r) l (logger r) (logFile r)
    (firstBuf r) (firstBufSize r) (secondBuf r) (secondBufSize r) (lost r)
    (statusChan r) (offline r) (reconnects r).

Definition set_logFile (l : option (list string)) (file : string) (r : Relay)
    : Relay :=
  mkRelay (client r) (connected r) (logChan r) (logLevel r) l file
    (firstBuf r) (firstBufSize r) (secondBuf r) (secondBufSize r) (lost r)
    (statusChan r) (offline r) (reconnects r).

Definition setLogLevel (now : Time) (level : Z) (r : Relay) : outcome Relay :=
  if (level <? LOG_EMERGENCY) || (LOG_DEBUG <? level)
  then internal now ("Invalid log level: " +:+ Sprintf_d level +:+
                     String (Ascii.ascii_of_nat 10) EmptyString) r
  else Ret (set_logLevel level r).

(** [opened] is the text of the error of [os.OpenFile], if it fails; the
    sink holds the lines printed to the file since it was opened. *)
Definition setLogFile (now : Time) (file : string) (opened : option string)
    (r : Relay) : outcome Relay :=
  if bool_decide (file = "") then Ret (set_logFile None "" r)
  else
    let opening :=
      if bool_decide (file = "STDOUT") then inr "/dev/stdout"
      else if bool_decide (file = "STDERR") then inr "/dev/stderr"
      else match opened with
           | Some text => inl text
           | None => inr file
           end in
    match opening with
    | inl text => internal now text r
    | inr name => Ret (set_logFile (Some ["logFile=" +:+ name]) name r)
    end.

(** The branches of the [select] in [Run]. *)
Inductive Event : Type :=
| EvEntry
| EvConnect (up : bool)
| EvLogFile (file : string) (opened : option string)
| EvLogLevel (level : Z).

(** The body of the [case entry := <-r.logChan] branch after the level test. *)
Definition on_entry (entry : LogEntry) (r : Relay) : outcome Relay :=
  let r1 :=
    match logger r with
    | Some out =>
        set_logger (Some (out ++ [Service entry +:+ ": " +:+
                     LogLevelName (Level entry) +:+ ": " +:+ Msg entry])) r
    | None => r
    end in
  if negb (offline r1) && bool_decide (client r1 <> None) then
    if connected r1
    then '(r2, _) ← send entry true r1; Ret r2
    else buffer entry r1
  else Ret r1.

Definition on_connect (now : Time) (up : bool) (r : Relay) : outcome Relay :=
  let r1 := set_connected up r in
  r2 ← internal now ("connected: " +:+ (if up then "true" else "false")) r1;
  if up then
    if 0 <? Z.of_nat (length (firstBuf r2)) then resend now r2 else Ret r2
  else Ret (add_reconnect r2).

Definition publish_status (r : Relay) : Relay :=
  match statusChan r with
  | [] =>
      set_statusChan
        [mkStatus (logLevel r) (logFile r) (connected r)
           (Z.of_nat (length (logChan r)))
           (add64 (firstBufSize r) (secondBufSize r))] r
  | _ :: _ => r
  end.

(** One iteration of the loop of [Run] at time [now]: [None] when the branch
    cannot fire (no entry is pending). Evaluating the [select] calls
    [r.client.ConnectChan()], which needs a client. An entry above the log
    level is skipped with [continue], which also skips the status update at
    the bottom of the loop. *)
Definition step (now : Time) (ev : Event) (r : Relay) : outcome (option Relay) :=
  match client r with
  | None => Panic "nil pointer dereference"
  | Some _ =>
      match ev with
      | EvEntry =>
          match logChan r with
          | [] => Ret None
          | entry :: rest =>
              let r0 := set_logChan rest r in
              if logLevel r0 <? Level entry then Ret (Some r0)
              else r' ← on_entry entry r0; Ret (Some (publish_status r'))
          end
      | EvConnect up =>
          r' ← on_connect now up r;
          Ret (Some (publish_status r'))
      | EvLogFile file opened =>
          r' ← setLogFile now file opened r;
          Ret (Some (publish_status r'))
      | EvLogLevel level =>
          r' ← setLogLevel now level r;
          Ret (Some (publish_status r'))
      end
  end.

(** The start of [Run]: the log file the relay was made with is opened and
    the relay connects in the background. *)
Definition Run_start (now : Time) (opened : option string) (r : Relay)
    : outcome Relay :=
  r' ← setLogFile now (logFile r) opened r;
  Ret (add_reconnect r').

(** A producer logging an entry: [logChan <- entry]. *)
Definition log_entry (e : LogEntry) (r : Relay) : outcome Relay :=
  if Z.of_nat (length (logChan r)) <? BUFFER_SIZE * 3
  then Ret (set_logChan (logChan r ++ [e]) r)
  else Blocked "logChan is full".

(** What happens around the relay: a producer logs an entry, or the loop of
    [Run] takes a branch of its [select] at some time. *)
Inductive Action : Type :=
| Log (e : LogEntry)
| Loop (now : Time) (ev : Event).

Definition act (a : Action) (r : Relay) : outcome Relay :=
  match a with
  | Log e => log_entry e r
  | Loop now ev =>
      o ← step now ev r;
      Ret (match o with Some r' => r' | None => r end)
  end.

Fixpoint run (acts : list Action) (r : Relay) : outcome Relay :=
  match acts with
  | [] => Ret r
  | a :: rest => r' ← act a r; run rest r'
  end.

(** Buffering a run of entries one after the other, the status being
    published after each as the loop does. *)
Fixpoint buffer_all (es : list LogEntry) (r : Relay) : outcome Relay :=
  match es with
  | [] => Ret r
  | e :: es' => r' ← buffer e r; buffer_all es' (publish_status r')
  end.

(** The relay is waiting with the client down: it has a client, is not in
    offline mode, has no file sink and its channel is empty. *)
Definition idle_down (r : Relay) : Prop :=
  (exists cl, client r = Some cl) /\ offline r = false /\ connected r = false
  /\ logger r = None /\ logChan r = [].

End WithBufferSize.

Definition BUFFER_SIZE_source : Z := 10.

Definition sent_by (o : outcome Relay) : option (list LogEntry) :=
  match o with
  | Ret r => match client r with Some c => Some (sent c) | None => None end
  | _ => None
  end.

(** The scenario of the relay with two-slot buffers: seven entries are logged
    and taken by the loop while the client is down, then the client comes up
    at time [now]. *)
Definition offline_then_reconnect (es : list LogEntry) (now : Time) : list Action :=
  flat_map (fun e => [Log e; Loop 0 EvEntry]) es ++ [Loop now (EvConnect true)].

Definition test_entry (msg : string) : LogEntry := mkLogEntry 1 4 "test" msg.

Definition seven : list LogEntry :=
  map test_entry ["A"; "B"; "C"; "D"; "E"; "F"; "G"].

Definition test_relay : Relay := NewRelay 2 (Some (mkClient [] [])) "" 7 false.

(** The same with the buffers of the source: entries numbered from 1. *)
Definition numbered (n : nat) : list LogEntry :=
  map (fun i => test_entry (pretty i)) (seq 1 n).

Definition source_relay : Relay :=
  NewRelay BUFFER_SIZE_source (Some (mkClient [] [])) "" 7 false.

(** The entries a buffer holds, in slot order. *)
Definition entries (buf : list (option LogEntry)) : list LogEntry :=
  omap id buf.

(** A buffer of [BUFFER_SIZE] slots whose first slots hold [l] and whose
    other slots are empty. *)
Definition packed (BUFFER_SIZE : Z) (l : list LogEntry)
    : list (option LogEntry) :=
  (Some <$> l) ++ replicate (Z.to_nat BUFFER_SIZE - length l)%nat None.

(** Both buffers have [BUFFER_SIZE] slots, and the sizes and the lost count
    are within what [buffer] can make of them. *)
Definition well_formed (BUFFER_SIZE : Z) (r : Relay) : Prop :=
  Z.of_nat (length (firstBuf r)) = BUFFER_SIZE
  /\ Z.of_nat (length (secondBuf r)) = BUFFER_SIZE
  /\ 0 <= firstBufSize r <= BUFFER_SIZE
  /\ 0 <= secondBufSize r <= BUFFER_SIZE
  /\ 0 <= lost r.

(** Of [n] entries buffered one after the other, how many the second buffer
    holds: it fills up once the first is full and starts over with one entry
    each time it overflows. *)
Definition kept_second (BUFFER_SIZE n : Z) : Z :=
  if n <=? BUFFER_SIZE then 0 else (n - BUFFER_SIZE - 1) mod BUFFER_SIZE + 1.

(** The last [k] elements of a list. *)
Definition last_n {A : Type} (k : Z) (l : list A) : list A :=
  drop (length l - Z.to_nat k)%nat l.

(** What the relay holds once the entries [es] have been buffered one after
    the other, starting with empty buffers: the first buffer has the first
    entries, the second buffer the last ones, and what was in between is
    counted as lost. *)
Definition holds (BUFFER_SIZE : Z) (es : list LogEntry) (r : Relay) : Prop :=
  let n := Z.of_nat (length es) in
  firstBuf r = packed BUFFER_SIZE (take (Z.to_nat BUFFER_SIZE) es)
  /\ firstBufSize r = Z.min n BUFFER_SIZE
  /\ secondBuf r = packed BUFFER_SIZE (last_n (kept_second BUFFER_SIZE n) es)
  /\ secondBufSize r = kept_second BUFFER_SIZE n
  /\ lost r = n - Z.min n BUFFER_SIZE - kept_second BUFFER_SIZE n.

(** The relay with two-slot buffers once the seven entries are buffered. *)
Definition after_seven (c : Client) : Relay :=
  mkRelay (Some c) false [] 7 None ""
    [Some (test_entry "A"); Some (test_entry "B")] 2
    [Some (test_entry "G"); None] 1
    4 [] false 0.

(** An offline relay with the client [c], nothing buffered and nothing
    lost. *)
Definition quiet (BUFFER_SIZE : Z) (c : Client) (r : Relay) : Prop :=
  offline r = true /\ client r = Some c
  /\ firstBuf r = replicate (Z.to_nat BUFFER_SIZE) None
  /\ secondBuf r = replicate (Z.to_nat BUFFER_SIZE) None /\ lost r = 0.

(** A client whose every [Send] fails, for the coming [n] calls. *)
Definition failing (sent_so_far : list LogEntry) (n : nat) : Client :=
  mkClient sent_so_far (replicate n true).

End Log.

(** ** package monitor: the MySQL restart monitor (mrms/monitor/instance.go) *)
Module Monitor.

(** A subscriber channel [chan bool] of capacity 5, identified by a number;
    the map holds what is queued on each. *)
Record mysqlInstance : Type := mkInstance {
  lastUptime : Z;
  lastUptimeCheck : Time;
  subscribers : gmap nat (list bool)
}.

Definition Add (c : nat) (m : mysqlInstance) : mysqlInstance :=
  mkInstance (lastUptime m) (lastUptimeCheck m) (<[c := []]> (subscribers m)).

Definition Remove (c : nat) (m : mysqlInstance) : mysqlInstance :=
  mkInstance (lastUptime m) (lastUptimeCheck m) (delete c (subscribers m)).

Definition Empty (m : mysqlInstance) : bool :=
  bool_decide (size (subscribers m) = 0%nat).

(** [currentUptime] is what [m.mysqlConn.Uptime()] returns, [now1] and [now2]
    are the results of the two [time.Now()] calls, in program order. *)
Definition CheckIfMysqlRestarted (m : mysqlInstance) (currentUptime : Z)
    (now1 now2 : Time) : mysqlInstance * bool :=
  let lastUptime_ := lastUptime m in
  let lastUptimeCheck_ := lastUptimeCheck m in
  let elapsedTime := sub64 (Unix now1) (Unix lastUptimeCheck_) in
  let expectedUptime := add64 lastUptime_ elapsedTime in
  let m' := mkInstance currentUptime now2 (subscribers m) in
  if currentUptime <? expectedUptime then (m', true) else (m', false).

(** [select { case c <- true: default: warn }] for every subscriber. *)
Definition NotifySubscribers (m : mysqlInstance) : mysqlInstance * list string :=
  (mkInstance (lastUptime m) (lastUptimeCheck m)
     ((fun q => if (length q <? 5)%nat then q ++ [true] else q) <$> subscribers m),
   (fun _ => "Unable to notify subscriber") <$>
     filter (fun kq => ¬ (length kq.2 < 5)%nat) (map_to_list (subscribers m))).

(** The whole seconds between the stored check time and a later [time.Now()]. *)
Definition elapsed (m : mysqlInstance) (now : Time) : Z :=
  Unix now - Unix (lastUptimeCheck m).

Definition seconds (s : Z) : Time := s * 1000000000.

(** [n] calls of [NotifySubscribers] in a row, with no subscriber reading
    its channel in between. *)
Definition notify_n (n : nat) (m : mysqlInstance) : mysqlInstance :=
  Nat.iter n (fun m => (NotifySubscribers m).1) m.

End Monitor.

(** ** package event of go-mysql: the classes a worker reports *)
Module Event.

Record TimeStats : Type := mkTimeStats {
  ts_Cnt : Z;
  ts_Sum : float;
  ts_Min : float;
  ts_Max : float;
  ts_Avg : float
}.

Record NumberStats : Type := mkNumberStats {
  ns_Cnt : Z;
  ns_Sum : Z
}.

Record BoolStats : Type := mkBoolStats {
  bs_Cnt : Z;
  bs_True : Z
}.

Record Metrics : Type := mkMetrics {
  TimeMetrics : gmap string TimeStats;
  NumberMetrics : gmap string NumberStats;
  BoolMetrics : gmap string BoolStats
}.

Definition NewMetrics : Metrics := mkMetrics ∅ ∅ ∅.

Record QueryClass : Type := mkQueryClass {
  Id : string;
  Fingerprint : string;
  qc_Metrics : Metrics;
  qc_TotalQueries : Z
}.

Definition NewQueryClass (classId fingerprint : string) (sample : bool)
    : QueryClass :=
  mkQueryClass classId fingerprint NewMetrics 0.

Record GlobalClass : Type := mkGlobalClass {
  TotalQueries : Z;
  UniqueQueries : Z;
  gc_Metrics : Metrics
}.

Definition NewGlobalClass : GlobalClass := mkGlobalClass 0 0 NewMetrics.

End Event.

(** ** package perfschema: the performance-schema worker
       (qan/perfschema/worker.go) *)
Module Perfschema.

Import Event.

(** [float64(x)] of an unsigned integer: rounding to nearest even. *)
Definition float64_of_uint (z : Z) : float :=
  SF2Prim (binary_normalize 53 1024 z 0 false).

(** [math.Pow10(n)] for the exponents whose power of ten is a binary64 value
    ([|n| <= 22]): the power itself, and for a negative exponent one divided
    by the power. *)
Definition Pow10 (n : Z) : float :=
  if n <? 0
  then PrimFloat.div (float64_of_uint 1) (float64_of_uint (10 ^ (- n)))
  else float64_of_uint (10 ^ n).

(** [strings.ToUpper] on ASCII text. *)
Definition upper (c : Ascii.ascii) : Ascii.ascii :=
  let n := Ascii.N_of_ascii c in
  if ((97 <=? n) && (n <=? 122))%N then Ascii.ascii_of_N (n - 32) else c.

Fixpoint ToUpper (s : string) : string :=
  match s with
  | EmptyString => EmptyString
  | String c rest => String (upper c) (ToUpper rest)
  end.

(** [s[lo:hi]] on a string: out of range panics. *)
Definition slice_string (s : string) (lo hi : nat) : outcome string :=
  if bool_decide (lo <= hi <= String.length s)%nat
  then Ret (String.substring lo (hi - lo) s)
  else Panic "slice bounds out of range".

Record DigestRow : Type := mkDigestRow {
  Digest : string;
  DigestText : string;
  SumTimerWait : Z;
  MinTimerWait : Z;
  AvgTimerWait : Z;
  MaxTimerWait : Z;
  SumLockTime : Z;
  SumRowsAffected : Z;
  SumRowsSent : Z;
  SumRowsExamined : Z;
  SumSelectFullJoin : Z;
  SumSelectScan : Z;
  SumSortMergePasses : Z;
  SumCreatedTmpDiskTables : Z;
  SumCreatedTmpTables : Z;
  CountStar : Z;
  FirstSeen : Time;
  LastSeen : Time
}.

(** [qan.Result]; [RunTime] is filled in by the manager afterwards. *)
Record Result : Type := mkResult {
  Global : GlobalClass;
  Class : list QueryClass
}.

(** The worker, with the updates it made to its status. *)
Record Worker : Type := mkWorker {
  name : string;
  status : list (string * string)
}.

Section WithEvent.

(** [GlobalClass.AddClass] of the event package. *)
Variable AddClass : GlobalClass -> QueryClass -> GlobalClass.

Definition row_stats (row : DigestRow) : Metrics :=
  let cnt := CountStar row in
  mkMetrics
    (<["Lock_time" :=
         mkTimeStats cnt
           (float64_of_uint (SumLockTime row) * Pow10 (-12))%float 0 0 0]>
     (<["Query_time" :=
         mkTimeStats cnt
           (float64_of_uint (SumTimerWait row) * Pow10 (-12))%float
           (float64_of_uint (MinTimerWait row) * Pow10 (-12))%float
           (float64_of_uint (MaxTimerWait row) * Pow10 (-12))%float
           (float64_of_uint (AvgTimerWait row) * Pow10 (-12))%float]>
      (TimeMetrics NewMetrics)))
    (<["Merge_passes" := mkNumberStats cnt (SumSortMergePasses row)]>
     (<["Rows_examined" := mkNumberStats cnt (SumRowsExamined row)]>
      (<["Rows_sent" := mkNumberStats cnt (SumRowsSent row)]>
       (<["Rows_affected" := mkNumberStats cnt (SumRowsAffected row)]>
        (NumberMetrics NewMetrics)))))
    (<["Full_scan" := mkBoolStats cnt (SumSelectScan row)]>
     (<["Full_join" := mkBoolStats cnt (SumSelectFullJoin row)]>
      (<["Tmp_table" := mkBoolStats cnt (SumCreatedTmpTables row)]>
       (<["Tmp_table_on_disk" := mkBoolStats cnt (SumCreatedTmpDiskTables row)]>
        (BoolMetrics NewMetrics))))).

(** The body of the loop over the rows. *)
Definition prepare_row (row : DigestRow) : outcome QueryClass :=
  let stats := row_stats row in
  digest ← slice_string (Digest row) 16 32;
  let classId := ToUpper digest in
  let class := NewQueryClass classId (DigestText row) false in
  Ret (mkQueryClass (Id class) (Fingerprint class) stats (CountStar row)).

Fixpoint prepare_rows (rows : list DigestRow) (global : GlobalClass)
    (classes : list QueryClass) : outcome (GlobalClass * list QueryClass) :=
  match rows with
  | [] => Ret (global, classes)
  | row :: rest =>
      class ← prepare_row row;
      prepare_rows rest (AddClass global class) (classes ++ [class])
  end.

Definition PrepareResult (w : Worker) (rows : list DigestRow)
    : Worker * outcome Result :=
  (mkWorker (name w) (status w ++ [(name w, "Preparing result")]),
   '(global, classes) ← prepare_rows rows NewGlobalClass [];
   let nClasses := Z.of_nat (length classes) in
   Ret (mkResult (mkGlobalClass nClasses nClasses (gc_Metrics global)) classes)).

(** What the database answers the SELECT with: the query fails, with
    [sql.ErrNoRows] or with another error, or it gives rows, each of which
    scans into a [DigestRow] or fails to, and then the error of the
    iteration, if any. *)
Inductive Queried : Type :=
| QueryFailed (no_rows : bool) (err : error)
| Rows (scanned : list (error + DigestRow)) (rows_err : option error).

(** [w.status.Update(w.name, value)] *)
Definition update (value : string) (w : Worker) : Worker :=
  mkWorker (name w) (status w ++ [(name w, value)]).

(** The text of an error, [err.Error()]. *)
Variable error_text : error -> string.

(** The loop over [rows.Next()]. *)
Fixpoint scan_rows (scanned : list (error + DigestRow)) (data : list DigestRow)
    : list DigestRow * option error :=
  match scanned with
  | [] => (data, None)
  | inl err :: _ =>
      ([], Some (ErrorString ("rows.Scan error: " +:+ error_text err +:+ ": ")))
  | inr row :: rest => scan_rows rest (data ++ [row])
  end.

(** A nil slice of rows is the empty list. *)
Definition CollectData (w : Worker) (q : Queried)
    : Worker * (list DigestRow * option error) :=
  (update "SELECT performance_schema.events_statements_summary_by_digest" w,
   match q with
   | QueryFailed true _ => ([], None)
   | QueryFailed false err => ([], Some err)
   | Rows scanned rows_err =>
       match scan_rows scanned [] with
       | (_, Some err) => ([], Some err)
       | (data, None) =>
           match rows_err with
           | Some err =>
               ([], Some (ErrorString
                            ("rows.Err error: " +:+ error_text err +:+ ": ")))
           | None => (data, None)
           end
       end
   end).

(** [exec_failed] is the error of the TRUNCATE statement, if any. *)
Definition TruncateTable (w : Worker) (exec_failed : option error)
    : Worker * option error :=
  (update "TRUNCATE performance_schema.events_statements_summary_by_digest" w,
   exec_failed).

Definition Run (w : Worker) (q : Queried) (exec_failed : option error)
    : Worker * outcome (option Result * option error) :=
  let '(w, (rows, err)) := CollectData w q in
  match err with
  | Some e => (w, Ret (None, Some e))
  | None =>
      let '(w, err) := TruncateTable w exec_failed in
      match err with
      | Some e => (w, Ret (None, Some e))
      | None =>
          let '(w, res) := PrepareResult w rows in
          (w, r ← res; Ret (Some r, None))
      end
  end.

End WithEvent.

(** The rows among what was scanned. *)
Definition scanned_rows (scanned : list (error + DigestRow)) : list DigestRow :=
  omap (fun x => match x with inr row => Some row | inl _ => None end) scanned.

(** A digest as MySQL gives it: 32 hexadecimal digits. *)
Definition test_row (digest text : string) (count : Z) : DigestRow :=
  mkDigestRow digest text 3000000000000 1000000000000 1500000000000
    2000000000000 0 0 0 0 0 0 0 0 0 count 0 0.

End Perfschema.

(** ** package qan: the query-analytics manager (qan/manager.go) *)
Module Qan.

(** [mysql.Query]: a variable of the database and the value to set. *)
Definition Query : Type := (string * string)%type.

(** Modelled from the spec: the declaration of [qan.Config] is not among the
    sources. The fields are those the manager reads; [Interval] and
    [WorkerRunTime] are unsigned (seconds in (0,3600] and (0,1200], tested
    against 0 by [ValidateConfig]), [MaxWorkers] is an [int] (compared with
    [len(m.workers)]) and [MaxSlowLogSize] an [int64]. *)
Record Config : Type := mkConfig {
  Service : string;
  InstanceId : N;
  CollectFrom : string;
  Start : list Query;
  Stop : list Query;
  MaxWorkers : Z;
  Interval : N;
  MaxSlowLogSize : Z;
  RemoveOldSlowLogs : bool;
  ExampleQueries : bool;
  WorkerRunTime : N
}.

Definition set_CollectFrom (v : string) (c : Config) : Config :=
  mkConfig (Service c) (InstanceId c) v (Start c) (Stop c) (MaxWorkers c)
    (Interval c) (MaxSlowLogSize c) (RemoveOldSlowLogs c) (ExampleQueries c)
    (WorkerRunTime c).

(** [qan.Interval] *)
Record Interval_ : Type := mkInterval {
  Number : Z;
  StartTime : Time;
  StopTime : Time;
  Filename : string;
  StartOffset : Z;
  EndOffset : Z
}.

(** [qan.Job]; [RunTime] is a [time.Duration], in nanoseconds. *)
Record Job : Type := mkJob {
  job_Id : string;
  SlowLogFile : string;
  job_StartOffset : Z;
  job_EndOffset : Z;
  RunTime : Z;
  job_ExampleQueries : bool
}.

Inductive Level : Type := Debug | Info | Warn | Error_.

(** The calls the manager makes to its collaborators, in the order it makes
    them: the status registry, the logger, the instance repository, the
    MySQL connector and its factory, the restart monitor, the interval
    iterator, the clock, the sync channel of [run], the worker factory, the
    file system and the basedir. *)
Inductive Effect : Type :=
| StatusUpdate (name value : string)
| StatusUpdateRe (name value : string) (cmd : Proto.Cmd)
| StatusLastInterval (t0 t1 : Time)
| Logged (level : Level) (msg : string) (err : option error)
| ImGet (service : string) (instanceId : N)
| MysqlMake (dsn : string)
| MrmAdd (dsn : string)
| MrmRemove (dsn : string)
| Connect (tries : Z)
| Close
| Set_ (queries : list Query)
| IterMake (collectFrom : string)
| IterStart
| IterStop
| ClockAdd (interval : N)
| ClockRemove
| TickSend
| SyncStop
| SyncWait
| SyncGraceful
| SyncDone
| GoRun (config : Config)
| WorkerMake (collectFrom name : string)
| GoWorker (w : nat) (job : Job)
| Rename (old new : string)
| RemoveFile (file : string)
| ReadConfig
| WriteConfig (config : Config)
| RemoveConfig.

(** The goroutine of [run]: its copy of the config and its local [lastTs]. *)
Record RunLoop : Type := mkRunLoop {
  rl_config : Config;
  lastTs : Time
}.

(** The manager. [mysqlConn] and [mysqlInstance] hold the DSN of the
    connector and of the instance once [makeMySQLConn] has set them, [iter]
    and [restartChan] tell whether the iterator and the restart channel are
    set, [workers] is keyed by the workers the factory made, [runLoop] is the
    goroutine of [run] while it lives, and [trace] the calls made so far. *)
Record Manager : Type := mkManager {
  config : option Config;
  running : bool;
  mysqlConn : option string;
  mysqlInstance : option string;
  restartChan : bool;
  iter : bool;
  workers : gmap nat Interval_;
  oldSlowLogs : gmap string Z;
  runLoop : option RunLoop;
  trace : list Effect
}.

Definition NewManager : Manager :=
  mkManager None false None None false false ∅ ∅ None [].

Definition set_config (c : option Config) (m : Manager) : Manager :=
  mkManager c (running m) (mysqlConn m) (mysqlInstance m) (restartChan m)
    (iter m) (workers m) (oldSlowLogs m) (runLoop m) (trace m).
Definition set_running (b : bool) (m : Manager) : Manager :=
  mkManager (config m) b (mysqlConn m) (mysqlInstance m) (restartChan m)
    (iter m) (workers m) (oldSlowLogs m) (runLoop m) (trace m).
Definition set_mysql (inst conn : option string) (m : Manager) : Manager :=
  mkManager (config m) (running m) conn inst (restartChan m)
    (iter m) (workers m) (oldSlowLogs m) (runLoop m) (trace m).
Definition set_restartChan (b : bool) (m : Manager) : Manager :=
  mkManager (config m) (running m) (mysqlConn m) (mysqlInstance m) b
    (iter m) (workers m) (oldSlowLogs m) (runLoop m) (trace m).
Definition set_iter (b : bool) (m : Manager) : Manager :=
  mkManager (config m) (running m) (mysqlConn m) (mysqlInstance m)
    (restartChan m) b (workers m) (oldSlowLogs m) (runLoop m) (trace m).
Definition set_workers (w : gmap nat Interval_) (m : Manager) : Manager :=
  mkManager (config m) (running m) (mysqlConn m) (mysqlInstance m)
    (restartChan m) (iter m) w (oldSlowLogs m) (runLoop m) (trace m).
Definition set_oldSlowLogs (o : gmap string Z) (m : Manager) : Manager :=
  mkManager (config m) (running m) (mysqlConn m) (mysqlInstance m)
    (restartChan m) (iter m) (workers m) o (runLoop m) (trace m).
Definition set_runLoop (r : option RunLoop) (m : Manager) : Manager :=
  mkManager (config m) (running m) (mysqlConn m) (mysqlInstance m)
    (restartChan m) (iter m) (workers m) (oldSlowLogs m) r (trace m).
Definition set_trace (t : list Effect) (m : Manager) : Manager :=
  mkManager (config m) (running m) (mysqlConn m) (mysqlInstance m)
    (restartChan m) (iter m) (workers m) (oldSlowLogs m) (runLoop m) t.

(** Code of the manager: it reads and changes the manager and returns,
    panics or blocks; what it did to the manager before a panic stays. *)
Definition M (A : Type) : Type := Manager -> outcome A * Manager.

#[global] Instance M_ret : MRet M := fun A a m => (Ret a, m).
#[global] Instance M_bind : MBind M := fun A B k c m =>
  match c m with
  | (Ret a, m') => k a m'
  | (Panic msg, m') => (Panic msg, m')
  | (Blocked msg, m') => (Blocked msg, m')
  end.

Definition get : M Manager := fun m => (Ret m, m).
Definition modify (f : Manager -> Manager) : M unit := fun m => (Ret tt, f m).
Definition emit (e : Effect) : M unit :=
  modify (fun m => set_trace (trace m ++ [e]) m).
Definition panic {A : Type} (msg : string) : M A := fun m => (Panic msg, m).
Definition block {A : Type} (msg : string) : M A := fun m => (Blocked msg, m).
Definition log (l : Level) (msg : string) : M unit := emit (Logged l msg None).
Definition log_err (l : Level) (msg : string) (e : error) : M unit :=
  emit (Logged l msg (Some e)).

(** [len(m.workers)] *)
Definition runningWorkers (m : Manager) : Z := Z.of_nat (size (workers m)).

Definition ValidateConfig (config : Config) : Config * option error :=
  let config :=
    if bool_decide (CollectFrom config = "")
    then set_CollectFrom "slowlog" config else config in
  (config,
   if bool_decide (CollectFrom config <> "slowlog")
      && bool_decide (CollectFrom config <> "perfschema") then
     Some (ErrorString ("Invalid CollectFrom: '" +:+ CollectFrom config +:+
                        "'.  Expected 'perfschema' or 'slowlog'."))
   else if bool_decide (length (Start config) = 0%nat) then
     Some (ErrorString "qan.Config.Start array is empty")
   else if bool_decide (length (Stop config) = 0%nat) then
     Some (ErrorString "qan.Config.Stop array is empty")
   else if MaxWorkers config <? 1 then
     Some (ErrorString "MaxWorkers must be > 0")
   else if 4 <? MaxWorkers config then
     Some (ErrorString "MaxWorkers must be < 4")
   else if (Interval config =? 0)%N then
     Some (ErrorString "Interval must be > 0")
   else if (3600 <? Interval config)%N then
     Some (ErrorString "Interval must be <= 3600 (1 hour)")
   else if (WorkerRunTime config =? 0)%N then
     Some (ErrorString "WorkerRuntime must be > 0")
   else if (1200 <? WorkerRunTime config)%N then
     Some (ErrorString "WorkerRuntime must be <= 1200 (20 minutes)")
   else None).

(** [m.mysqlConn.Connect(tries)], [.Set(queries)], [.Close()] and [.DSN()]
    need a connector; the results of the first two are inputs. *)
Definition conn_DSN : M string := fun m =>
  match mysqlConn m with
  | Some dsn => (Ret dsn, m)
  | None => (Panic "nil pointer dereference", m)
  end.

Definition conn_call (e : Effect) : M unit :=
  _ ← conn_DSN; emit e.

Definition makeMySQLConn (service : string) (instanceId : N)
    (got : error + string) : M (option error) :=
  log Debug "makeMySQLConn:call";;
  emit (ImGet service instanceId);;
  match got with
  | inl err => log Debug "makeMySQLConn:return";; mret (Some err)
  | inr dsn =>
      modify (set_mysql (Some dsn) (Some dsn));;
      emit (MysqlMake dsn);;
      log Debug "makeMySQLConn:return";;
      mret None
  end.

(** The results of [Connect] and [Set] in [configureMySQL]. *)
Record ConfigureEnv : Type := mkConfigureEnv {
  connected : option error;
  set_done : option error
}.

Definition configureMySQL (config : Config) (env : ConfigureEnv)
    : M (option error) :=
  log Debug "configureMySQL:call";;
  conn_call (Connect 2);;
  match connected env with
  | Some err => log Debug "configureMySQL:return";; mret (Some err)
  | None =>
      conn_call (Set_ (Start config));;
      conn_call Close;;
      log Debug "configureMySQL:return";;
      mret (set_done env)
  end.

(** [time.Time{}] *)
Definition zeroTime : Time := -62135596800 * 1000000000.

(** The top of the loop of [run]: the goroutine reports how many workers are
    running and waits in its [select]. *)
Definition idle : M unit :=
  m ← get;
  match runLoop m with
  | Some rl =>
      log Debug "run:idle";;
      emit (StatusUpdate "qan-parser"
              ("Idle (" +:+ Sprintf_d (runningWorkers m) +:+ " of " +:+
               Sprintf_d (MaxWorkers (rl_config rl)) +:+ " running)"))
  | None => mret tt
  end.

(** [go m.run] on a copy of the config: the goroutine starts, reports its
    status and waits in its [select]. *)
Definition go_run (config : Config) : M unit :=
  emit (GoRun config);;
  modify (set_runLoop (Some (mkRunLoop config zeroTime)));;
  emit (StatusUpdate "qan-parser" "Starting");;
  idle.

(** What [start] gets from its collaborators: the instance from the
    repository, the result of [mrm.Add], those of [configureMySQL], and
    whether the clock's ETA is over a minute. *)
Record StartEnv : Type := mkStartEnv {
  instance : error + string;
  mrm_added : option error;
  configured : ConfigureEnv;
  eta_over_minute : bool
}.

Definition start (config : Config) (env : StartEnv)
    : M (Config * option error) :=
  log Debug "start:call";;
  let '(config, err) := ValidateConfig config in
  match err with
  | Some e => log Debug "start:return";; mret (config, Some e)
  | None =>
  err ← makeMySQLConn (Service config) (InstanceId config) (instance env);
  match err with
  | Some e => log Debug "start:return";; mret (config, Some e)
  | None =>
  dsn ← conn_DSN;
  emit (MrmAdd dsn);;
  match mrm_added env with
  | Some e => log Debug "start:return";; mret (config, Some e)
  | None =>
  modify (set_restartChan true);;
  err ← configureMySQL config (configured env);
  match err with
  | Some e => log Debug "start:return";; mret (config, Some e)
  | None =>
  emit (IterMake (CollectFrom config));;
  modify (set_iter true);;
  emit IterStart;;
  go_run config;;
  emit (ClockAdd (Interval config));;
  (if eta_over_minute env
   then log Info "First interval began at";; emit TickSend
   else log Info "First interval begins in");;
  log Debug "start:return";;
  mret (config, None)
  end end end end.

(** The [stop] branch of [run] with its deferred calls. *)
Definition run_stop : M unit :=
  log Debug "run:stop";;
  emit SyncGraceful;;
  emit (StatusUpdate "qan-parser" "Stopped");;
  emit SyncDone;;
  modify (set_runLoop None).

(** A panic in [run] is recovered by its deferred function: the goroutine
    ends with the status "Crashed". *)
Definition run_crash (msg : string) : M unit :=
  log_err Error_ "QAN manager crashed: " (ErrorString msg);;
  emit (StatusUpdate "qan-parser" "Crashed");;
  emit SyncDone;;
  modify (set_runLoop None).

(** Modelled from the spec: [pct.SyncChan] is not among the sources.
    [Stop()] asks the worker goroutine to exit and [Wait()] blocks until it
    is done; with no goroutine left to answer, the caller stays blocked. *)
Definition sync_stop_wait : M unit :=
  emit SyncStop;;
  m ← get;
  match runLoop m with
  | Some _ => run_stop;; emit SyncWait
  | None => block "sync.Wait"
  end.

Definition stop (env : ConfigureEnv) : M (option error) :=
  log Debug "stop:call";;
  m ← get;
  (if iter m then emit IterStop else panic "nil pointer dereference");;
  modify (set_iter false);;
  emit ClockRemove;;
  dsn ← conn_DSN;
  emit (MrmRemove dsn);;
  sync_stop_wait;;
  log Debug "stop:mysql";;
  conn_call (Connect 2);;
  match connected env with
  | Some err => log Debug "stop:return";; mret (Some err)
  | None =>
      m ← get;
      match config m with
      | None => panic "nil pointer dereference"
      | Some c =>
          conn_call (Set_ (Stop c));;
          conn_call Close;;
          log Debug "stop:return";;
          mret (set_done env)
      end
  end.

(** What [pct.Basedir.ReadConfig] finds. *)
Inductive ReadResult : Type :=
| NotExist (err : error)
| ReadError (err : error)
| ReadOk (config : Config).

Definition Start_ (read : ReadResult) (env : StartEnv) : M (option error) :=
  m ← get;
  if running m then mret (Some (ServiceIsRunningError "qan"))
  else
    emit (StatusUpdate "qan" "Starting");;
    emit ReadConfig;;
    match read with
    | NotExist _ =>
        log Info "Not enabled";;
        emit (StatusUpdate "qan" "Running");; mret None
    | ReadError err =>
        log_err Error_ "Read qan config:" err;;
        emit (StatusUpdate "qan" "Running");; mret None
    | ReadOk config =>
        match ValidateConfig config with
        | (_, Some err) =>
            log_err Error_ "Invalid qan config:" err;;
            emit (StatusUpdate "qan" "Running");; mret None
        | (config, None) =>
            '(config, err) ← start config env;
            match err with
            | Some e =>
                log_err Error_ "Start pfs:" e;;
                emit (StatusUpdate "qan" "Running");; mret None
            | None =>
                modify (set_config (Some config));;
                modify (set_running true);;
                log Info "Started";;
                emit (StatusUpdate "qan" "Running");; mret None
            end
        end
    end.

Definition Stop_ (env : ConfigureEnv) : M (option error) :=
  m ← get;
  if negb (running m) then mret None
  else
    emit (StatusUpdate "qan" "Stopping");;
    err ← stop env;
    match err with
    | Some e => log_err Error_ "" e
    | None => mret tt
    end;;
    modify (set_running false);;
    log Info "Stopped";;
    emit (StatusUpdate "qan" "Stopped");;
    mret None.

(** [proto.AgentConfig] as [GetConfig] fills it. *)
Record AgentConfig : Type := mkAgentConfig {
  InternalService : string;
  Config_ : Config;
  Running : bool
}.

Definition GetConfig : M (option (list AgentConfig) * list error) :=
  log Debug "GetConfig:call";;
  m ← get;
  match config m with
  | None => log Debug "GetConfig:return";; mret (None, [])
  | Some c =>
      log Debug "GetConfig:return";;
      mret (Some [mkAgentConfig "qan" c (running m)], [])
  end.

(** What [Handle] gets from outside: the config that [json.Unmarshal] reads
    from the command, the inputs of [start] and [stop], and the results of
    writing and removing the config file. *)
Record HandleEnv : Type := mkHandleEnv {
  unmarshalled : error + Config;
  start_env : StartEnv;
  stop_env : ConfigureEnv;
  written : option error;
  removed : option error
}.

Definition opt_list {A : Type} (o : option A) : list A :=
  match o with Some a => [a] | None => [] end.

Definition Handle (cmd : Proto.Cmd) (env : HandleEnv)
    : M (Proto.Reply (list AgentConfig)) :=
  emit (StatusUpdateRe "qan" "Handling" cmd);;
  reply ←
    (if bool_decide (Proto.Cmd_ cmd = "StartService") then
       m ← get;
       if running m then
         mret (Proto.Reply_to cmd None [ServiceIsRunningError "qan"])
       else
         match unmarshalled env with
         | inl err => mret (Proto.Reply_to cmd None [err])
         | inr config =>
             '(config, err) ← start config (start_env env);
             match err with
             | Some e => mret (Proto.Reply_to cmd None [e])
             | None =>
                 modify (set_running true);;
                 modify (set_config (Some config));;
                 emit (WriteConfig config);;
                 mret (Proto.Reply_to cmd None (opt_list (written env)))
             end
         end
     else if bool_decide (Proto.Cmd_ cmd = "StopService") then
       m ← get;
       if negb (running m) then mret (Proto.Reply_to cmd None [])
       else
         err ← stop (stop_env env);
         modify (set_running false);;
         emit RemoveConfig;;
         mret (Proto.Reply_to cmd None (opt_list err ++ opt_list (removed env)))
     else if bool_decide (Proto.Cmd_ cmd = "GetConfig") then
       '(config, errs) ← GetConfig;
       mret (Proto.Reply_to cmd config errs)
     else
       mret (Proto.Reply_to cmd None [UnknownCmdError (Proto.Cmd_ cmd)]));
  emit (StatusUpdate "qan" "Running");;
  mret reply.

(** What [rotateSlowLog] gets from outside: the results of [Connect], of the
    two [Set] calls and of [os.Rename], the time of the rename and the size
    of the renamed file. *)
Record RotateEnv : Type := mkRotateEnv {
  rot_connected : option error;
  rot_stopped : option error;
  rot_now : Time;
  rot_renamed : option error;
  rot_started : option error;
  rot_size : Z
}.

Definition rotateSlowLog (config : Config) (interval : Interval_)
    (env : RotateEnv) : M (Interval_ * option error) :=
  log Debug "rotateSlowLog:call";;
  emit (StatusUpdate "qan-parser" "Rotating slow log");;
  conn_call (Connect 2);;
  match rot_connected env with
  | Some err =>
      log_err Warn "" err;;
      log Debug "rotateSlowLog:return";; mret (interval, Some err)
  | None =>
  conn_call (Set_ (Stop config));;
  match rot_stopped env with
  | Some err =>
      conn_call Close;;
      log Debug "rotateSlowLog:return";; mret (interval, Some err)
  | None =>
  let newSlowLogFile :=
    Filename interval +:+ "-" +:+ Sprintf_d (Unix (rot_now env)) in
  emit (Rename (Filename interval) newSlowLogFile);;
  match rot_renamed env with
  | Some err =>
      conn_call Close;;
      log Debug "rotateSlowLog:return";; mret (interval, Some err)
  | None =>
  conn_call (Set_ (Start config));;
  match rot_started env with
  | Some err =>
      conn_call Close;;
      log Debug "rotateSlowLog:return";; mret (interval, Some err)
  | None =>
  let interval :=
    mkInterval (Number interval) (StartTime interval) (StopTime interval)
      newSlowLogFile (StartOffset interval) (rot_size env) in
  (if RemoveOldSlowLogs config
   then modify (fun m =>
          set_oldSlowLogs
            (<[newSlowLogFile := add64 (runningWorkers m) 1]> (oldSlowLogs m)) m)
   else mret tt);;
  conn_call Close;;
  log Debug "rotateSlowLog:return";;
  mret (interval, None)
  end end end end.

(** The branches of the [select] in [run], with what each gets from outside:
    the interval from the iterator with the inputs of a rotation and the
    worker the factory makes; the worker that is done with the results of
    [os.Remove] for old slow logs; a restart of MySQL with the inputs of
    [configureMySQL]; the stop request. *)
Inductive RunEvent : Type :=
| EvInterval (interval : Interval_) (rot : RotateEnv) (w : nat)
| EvWorkerDone (w : nat) (remove : string -> option error)
| EvRestart (env : ConfigureEnv)
| EvStop.

Definition new_interval (config : Config) (interval : Interval_)
    (rot : RotateEnv) (w : nat) : M unit :=
  log Debug ("run:interval:" +:+ Sprintf_d (Number interval));;
  m ← get;
  log Debug (Sprintf_d (runningWorkers m) +:+ " workers running");;
  if MaxWorkers config <=? runningWorkers m then
    log Warn "All workers busy, interval dropped"
  else
    interval ←
      (if bool_decide (CollectFrom config = "slowlog")
          && (MaxSlowLogSize config <=? EndOffset interval)
       then
         log Info "Rotating slow log";;
         '(interval, err) ← rotateSlowLog config interval rot;
         match err with
         | Some e => log_err Error_ "" e;; mret interval
         | None => mret interval
         end
       else mret interval);
    emit (StatusUpdate "qan-parser" "Running worker");;
    let job :=
      mkJob (Sprintf_d (Number interval)) (Filename interval)
        (StartOffset interval) (EndOffset interval)
        (wrap64 (Z.of_N (WorkerRunTime config) * 1000000000))
        (ExampleQueries config) in
    (if bool_decide (CollectFrom config = "perfschema")
     then m ← get;
          match mysqlInstance m with
          | Some dsn => emit (MysqlMake dsn)
          | None => panic "nil pointer dereference"
          end
     else mret tt);;
    emit (WorkerMake (CollectFrom config)
            ("qan-worker-" +:+ Sprintf_d (Number interval)));;
    modify (fun m => set_workers (<[w := interval]> (workers m)) m);;
    emit (GoWorker w job).

(** The loop over [m.oldSlowLogs]; Go does not fix the order of the entries,
    the model takes that of the map's list. *)
Fixpoint reap_old_logs (logs : list (string * Z))
    (remove : string -> option error) : M unit :=
  match logs with
  | [] => mret tt
  | (file, cnt) :: rest =>
      (if cnt =? 1 then
         emit (StatusUpdate "qan-parser" ("Removing old slow log " +:+ file));;
         emit (RemoveFile file);;
         match remove file with
         | Some err => log_err Warn "" err
         | None =>
             modify (fun m => set_oldSlowLogs (delete file (oldSlowLogs m)) m);;
             log Info ("Removed " +:+ file)
         end
       else
         modify (fun m =>
           set_oldSlowLogs (<[file := sub64 cnt 1]> (oldSlowLogs m)) m));;
      reap_old_logs rest remove
  end.

Definition worker_done (rl : RunLoop) (w : nat)
    (remove : string -> option error) : M unit :=
  log Debug "run:worker:done";;
  emit (StatusUpdate "qan-parser" "Reaping worker");;
  m ← get;
  let found := workers m !! w in
  modify (set_workers (delete w (workers m)));;
  match found with
  | None => panic "nil pointer dereference"
  | Some interval =>
      (if After (StartTime interval) (lastTs rl) then
         emit (StatusLastInterval (StartTime interval) (StopTime interval));;
         modify (set_runLoop (Some (mkRunLoop (rl_config rl) (StartTime interval))))
       else mret tt);;
      if bool_decide (CollectFrom (rl_config rl) = "slowlog") then
        m ← get; reap_old_logs (map_to_list (oldSlowLogs m)) remove
      else mret tt
  end.

Definition restarted (config : Config) (env : ConfigureEnv) : M unit :=
  log Debug "run:mysql:restart";;
  err ← configureMySQL config env;
  match err with
  | Some e => log_err Warn "Failed to configure MySQL after restart: " e
  | None => mret tt
  end.

(** One iteration of the loop of [run]; with no goroutine running nothing
    happens. A panic in the body of the loop ends the goroutine through its
    deferred function. *)
Definition run_step (ev : RunEvent) : M unit := fun m =>
  match runLoop m with
  | None => (Ret tt, m)
  | Some rl =>
      let body : M unit :=
        match ev with
        | EvInterval interval rot w => new_interval (rl_config rl) interval rot w
        | EvWorkerDone w remove => worker_done rl w remove
        | EvRestart env => restarted (rl_config rl) env
        | EvStop => run_stop
        end in
      match body m with
      | (Ret _, m') => idle m'
      | (Panic msg, m') => run_crash msg m'
      | (Blocked msg, m') => (Blocked msg, m')
      end
  end.

(** What happens to a manager: commands of the agent and iterations of the
    loop of [run]. *)
Inductive Action : Type :=
| DoStart (read : ReadResult) (env : StartEnv)
| DoStop (env : ConfigureEnv)
| DoHandle (cmd : Proto.Cmd) (env : HandleEnv)
| DoRun (ev : RunEvent).

Definition act (a : Action) : M unit :=
  match a with
  | DoStart read env => Start_ read env;; mret tt
  | DoStop env => Stop_ env;; mret tt
  | DoHandle cmd env => Handle cmd env;; mret tt
  | DoRun ev => run_step ev
  end.

Fixpoint acts (l : list Action) : M unit :=
  match l with
  | [] => mret tt
  | a :: rest => act a;; acts rest
  end.

(** The config the running loop was started with. *)
Definition loop_config (m : Manager) : option Config :=
  rl_config <$> runLoop m.

(** The workers registered in the map do not exceed [MaxWorkers] of the
    config the loop runs with. *)
Definition within_MaxWorkers (m : Manager) : Prop :=
  match loop_config m with
  | Some c => runningWorkers m <= MaxWorkers c
  | None => True
  end.

Definition valid (c : Config) : Prop := (ValidateConfig c).2 = None.

(** Code that leaves the worker map and the goroutine of [run] alone. *)
Definition keeps {A : Type} (c : M A) : Prop :=
  forall m, workers (c m).2 = workers m /\ runLoop (c m).2 = runLoop m.

(** Code that leaves the worker map alone and, if it touches the goroutine
    of [run] at all, ends it or starts it with a config whose [MaxWorkers]
    is at least 1. *)
Definition tame {A : Type} (c : M A) : Prop :=
  forall m,
    workers (c m).2 = workers m
    /\ (runLoop (c m).2 = runLoop m \/ runLoop (c m).2 = None
        \/ exists c', loop_config (c m).2 = Some c' /\ 1 <= MaxWorkers c').

(** A run of iterations of the loop of [run]. *)
Fixpoint run_steps (evs : list RunEvent) : M unit :=
  match evs with
  | [] => mret tt
  | ev :: rest => run_step ev;; run_steps rest
  end.

(** A scenario: a slow-log config with room for [maxWorkers] workers, the
    commands that start and stop the service, collaborators that all
    succeed, and intervals too short to rotate the slow log. *)
Definition test_config (maxWorkers : Z) : Config :=
  mkConfig "mysql" 1 "slowlog" [("slow_query_log", "ON")]
    [("slow_query_log", "OFF")] maxWorkers 60 1073741824 false false 30.

Definition all_well : ConfigureEnv := mkConfigureEnv None None.

Definition start_well : StartEnv :=
  mkStartEnv (inr "user:pass@tcp(127.0.0.1:3306)/") None all_well false.

Definition handle_well (c : Config) : HandleEnv :=
  mkHandleEnv (inr c) start_well all_well None None.

Definition start_cmd : Proto.Cmd := Proto.mkCmd 2 0 "user" "qan" "StartService" "".
Definition stop_cmd : Proto.Cmd := Proto.mkCmd 3 0 "user" "qan" "StopService" "".

Definition no_rotation : RotateEnv := mkRotateEnv None None 0 None None 0.

Definition minute (n : Z) : Interval_ :=
  mkInterval n (n * 60000000000) ((n + 1) * 60000000000) "slow.log" 0 100.

(** The service is started with room for two workers, two intervals arrive
    and their workers are still running when the service is stopped and
    started again with room for one. *)
Definition restart_with_less_room : list Action :=
  [DoHandle start_cmd (handle_well (test_config 2));
   DoRun (EvInterval (minute 1) no_rotation 1%nat);
   DoRun (EvInterval (minute 2) no_rotation 2%nat);
   DoHandle stop_cmd (handle_well (test_config 2));
   DoHandle start_cmd (handle_well (test_config 1))].

(** The manager after a first StartService, and after two intervals whose
    workers are still running. *)
Definition started : Manager :=
  (Handle start_cmd (handle_well (test_config 2)) NewManager).2.

Definition two_busy : Manager :=
  (run_steps [EvInterval (minute 1) no_rotation 1%nat;
              EvInterval (minute 2) no_rotation 2%nat] started).2.

(** The calls that tear a running pipeline down: stopping the iterator,
    leaving the clock and the restart monitor, stopping [run], and talking
    to MySQL. *)
Definition teardown (e : Effect) : bool :=
  match e with
  | IterStop | ClockRemove | MrmRemove _ | SyncStop | SyncWait
  | Connect _ | Set_ _ | Close | RemoveConfig => true
  | _ => false
  end.

(** The manager with what [Handle] adds to the trace around a command it
    rejects or has nothing to do for: the two updates of the "qan" status. *)
Definition handled (cmd : Proto.Cmd) (m : Manager) : Manager :=
  set_trace (trace m ++ [StatusUpdateRe "qan" "Handling" cmd;
                         StatusUpdate "qan" "Running"]) m.

(** The [Set] calls among the calls made, and the number of [Close]
    calls. *)
Definition set_calls (t : list Effect) : list (list Query) :=
  omap (fun e => match e with Set_ q => Some q | _ => None end) t.

Definition close_calls (t : list Effect) : nat :=
  length (omap (fun e => match e with Close => Some tt | _ => None end) t).

(** The interval after a rotation at the time [now] that left a file of
    [size] bytes. *)
Definition rotated (interval : Interval_) (now : Time) (size : Z) : Interval_ :=
  mkInterval (Number interval) (StartTime interval) (StopTime interval)
    (Filename interval +:+ "-" +:+ Sprintf_d (Unix now))
    (StartOffset interval) size.

(** What one pass of the loop over [m.oldSlowLogs] leaves of an entry. *)
Definition reaped (remove : string -> option error) (file : string) (cnt : Z)
    : option Z :=
  if cnt =? 1 then
    match remove file with Some _ => Some cnt | None => None end
  else Some (sub64 cnt 1).

End Qan.

(** ** package agent: the supervisor (agent/agent.go) *)
Module Agent.

Definition CMD_QUEUE_SIZE : Z := 10.
Definition STATUS_QUEUE_SIZE : Z := 10.
Definition MAX_ERRORS : Z := 3.

Record Config : Type := mkConfig {
  ApiHostname : string;
  ApiKey : string;
  AgentUuid : string;
  Links : gmap string string
}.

Inductive Level : Type := Debug | Info | Warn | Error_ | Fatal.

(** The calls the agent makes to its collaborators: the status registry, the
    logger, the websocket client, the goroutines it starts, the sync
    channels of its two handlers, the service managers, the start lock, the
    file system and the process it spawns on Restart. *)
Inductive Effect : Type :=
| StatusUpdate (name value : string)
| StatusUpdateRe (name value : string) (cmd : Proto.Cmd)
| Logged (level : Level) (msg : string) (err : option error)
| LoggedCmd (level : Level) (msg : string) (cmd : Proto.Cmd)
| ClientStart
| GoConnect
| GoCmdHandler
| GoStatusHandler
| SyncStop (handler : string)
| SyncWait (handler : string)
| ServiceStop (service : string)
| MakeStartLock
| Getwd
| WriteStartScript
| ExecStart
| Replied (reply : Proto.Reply Config)
| ReplyLost (reply : Proto.Reply Config).

Section WithAPI.

(** [pct.APIConnector]: its state, its getters, and [Connect], which gives
    the connector afterwards and the text of the error if it failed. *)
Variable API : Type.
Variable api_Hostname api_ApiKey api_AgentUuid : API -> string.
Variable api_Connect : API -> string -> string -> string -> API * option string.

(** The agent with its config and API connector, the agent's config file in
    the basedir, the two queues, whether each handler goroutine is alive,
    the names of its services, and the calls made so far. *)
Record Agent : Type := mkAgent {
  config : option Config;
  api : API;
  stored : option Config;
  services : list string;
  cmdChan : list Proto.Cmd;
  statusChan : list Proto.Cmd;
  cmdHandler : bool;
  statusHandler : bool;
  trace : list Effect
}.

Definition set_config (c : option Config) (a : Agent) : Agent :=
  mkAgent c (api a) (stored a) (services a) (cmdChan a) (statusChan a)
    (cmdHandler a) (statusHandler a) (trace a).
Definition set_api (x : API) (a : Agent) : Agent :=
  mkAgent (config a) x (stored a) (services a) (cmdChan a) (statusChan a)
    (cmdHandler a) (statusHandler a) (trace a).
Definition set_stored (c : option Config) (a : Agent) : Agent :=
  mkAgent (config a) (api a) c (services a) (cmdChan a) (statusChan a)
    (cmdHandler a) (statusHandler a) (trace a).
Definition set_cmdChan (q : list Proto.Cmd) (a : Agent) : Agent :=
  mkAgent (config a) (api a) (stored a) (services a) q (statusChan a)
    (cmdHandler a) (statusHandler a) (trace a).
Definition set_statusChan (q : list Proto.Cmd) (a : Agent) : Agent :=
  mkAgent (config a) (api a) (stored a) (services a) (cmdChan a) q
    (cmdHandler a) (statusHandler a) (trace a).
Definition set_cmdHandler (b : bool) (a : Agent) : Agent :=
  mkAgent (config a) (api a) (stored a) (services a) (cmdChan a) (statusChan a)
    b (statusHandler a) (trace a).
Definition set_statusHandler (b : bool) (a : Agent) : Agent :=
  mkAgent (config a) (api a) (stored a) (services a) (cmdChan a) (statusChan a)
    (cmdHandler a) b (trace a).
Definition set_trace (t : list Effect) (a : Agent) : Agent :=
  mkAgent (config a) (api a) (stored a) (services a) (cmdChan a) (statusChan a)
    (cmdHandler a) (statusHandler a) t.

Definition NewAgent (c : option Config) (x : API) (svcs : list string) : Agent :=
  mkAgent c x None svcs [] [] false false [].

(** Code of the agent, as for the QAN manager. *)
Definition M (A : Type) : Type := Agent -> outcome A * Agent.

#[global] Instance M_ret : MRet M := fun A x a => (Ret x, a).
#[global] Instance M_bind : MBind M := fun A B k c a =>
  match c a with
  | (Ret x, a') => k x a'
  | (Panic msg, a') => (Panic msg, a')
  | (Blocked msg, a') => (Blocked msg, a')
  end.

Definition get : M Agent := fun a => (Ret a, a).
Definition modify (f : Agent -> Agent) : M unit := fun a => (Ret tt, f a).
Definition emit (e : Effect) : M unit :=
  modify (fun a => set_trace (trace a ++ [e]) a).
Definition panic {A : Type} (msg : string) : M A := fun a => (Panic msg, a).
Definition block {A : Type} (msg : string) : M A := fun a => (Blocked msg, a).
Definition log (l : Level) (msg : string) : M unit := emit (Logged l msg None).
Definition log_err (l : Level) (msg : string) (e : error) : M unit :=
  emit (Logged l msg (Some e)).

(** What [handleSetConfig] gets from outside: the config that
    [json.Unmarshal] reads from the command, and the text of the error of
    [pct.Basedir.WriteConfig] if it fails. *)
Record SetConfigEnv : Type := mkSetConfigEnv {
  unmarshalled : error + Config;
  write_failed : option string
}.

Definition with_ApiKey (v : string) (c : Config) : Config :=
  mkConfig (ApiHostname c) v (AgentUuid c) (Links c).
Definition with_ApiHostname (v : string) (c : Config) : Config :=
  mkConfig v (ApiKey c) (AgentUuid c) (Links c).

(** The two guarded mutations of [handleSetConfig], each giving the config
    and the list of errors afterwards. *)
Definition change_ApiKey (newConfig : Config) (st : Config * list error)
    : M (Config * list error) :=
  let '(finalConfig, errs) := st in
  if bool_decide (ApiKey newConfig <> "")
     && bool_decide (ApiKey newConfig <> ApiKey finalConfig) then
    log Warn ("Changing API key from " +:+ ApiKey finalConfig +:+ " to " +:+
              ApiKey newConfig);;
    a ← get;
    let '(x, err) :=
      api_Connect (api a) (api_Hostname (api a)) (ApiKey newConfig)
        (api_AgentUuid (api a)) in
    modify (set_api x);;
    match err with
    | Some text =>
        mret (finalConfig,
              errs ++ [ErrorString ("agent.api.Connect:ApiKey:" +:+ text)])
    | None => mret (with_ApiKey (ApiKey newConfig) finalConfig, errs)
    end
  else mret (finalConfig, errs).

Definition change_ApiHostname (newConfig : Config) (st : Config * list error)
    : M (Config * list error) :=
  let '(finalConfig, errs) := st in
  if bool_decide (ApiHostname newConfig <> "")
     && bool_decide (ApiHostname newConfig <> ApiHostname finalConfig) then
    log Warn ("Changing API host from " +:+ ApiHostname finalConfig +:+
              " to " +:+ ApiHostname newConfig);;
    a ← get;
    let '(x, err) :=
      api_Connect (api a) (ApiHostname newConfig) (api_ApiKey (api a))
        (api_AgentUuid (api a)) in
    modify (set_api x);;
    match err with
    | Some text =>
        mret (finalConfig,
              errs ++ [ErrorString ("agent.api.Connect:ApiHostname:" +:+ text)])
    | None => mret (with_ApiHostname (ApiHostname newConfig) finalConfig, errs)
    end
  else mret (finalConfig, errs).

Definition handleSetConfig (cmd : Proto.Cmd) (env : SetConfigEnv)
    : M (option Config * list error) :=
  emit (StatusUpdateRe "agent-cmd-handler" "SetConfig" cmd);;
  emit (LoggedCmd Info "" cmd);;
  match unmarshalled env with
  | inl err => mret (None, [err])
  | inr newConfig =>
      a ← get;
      match config a with
      | None => panic "nil pointer dereference"
      | Some current =>
          st ← change_ApiKey newConfig (current, []);
          '(finalConfig, errs) ← change_ApiHostname newConfig st;
          errs ←
            match write_failed env with
            | Some text =>
                mret (errs ++ [ErrorString ("agent.WriteConfig:" +:+ text)])
            | None =>
                modify (set_stored (Some finalConfig));; mret errs
            end;
          modify (set_config (Some finalConfig));;
          mret (Some finalConfig, errs)
      end
  end.

(** [agent.reply]: the reply goes to the client's send channel, or is given
    up after 20 seconds; [taken] tells which. *)
Definition reply (taken : bool) (r : Proto.Reply Config) : M unit :=
  if taken then emit (Replied r)
  else emit (ReplyLost r);; log Warn "Failed to send reply:".

(** Modelled from the spec: [pct.SyncChan] is not among the sources.
    [Stop()] asks the handler goroutine to exit and [Wait()] blocks until it
    is done; a handler that is no longer running never answers. *)
Definition stop_handler (name : string) (alive : Agent -> bool)
    (down : Agent -> Agent) : M unit :=
  emit (SyncStop name);;
  a ← get;
  if alive a then modify down;; emit (SyncWait name)
  else block "sync.Wait".

(** The loop over [agent.services]; Go does not fix the order of the
    entries, the model takes that of the list. [stopped] gives the error of
    each manager's [Stop()], if any. *)
Fixpoint stop_services (cmd : Proto.Cmd) (stopped : string -> option error)
    (names : list string) : M unit :=
  match names with
  | [] => mret tt
  | service :: rest =>
      (if bool_decide (service = "log") then mret tt
       else
         log Info ("Stopping " +:+ service);;
         emit (StatusUpdateRe "agent" ("Stopping " +:+ service) cmd);;
         emit (ServiceStop service);;
         match stopped service with
         | Some err => log_err Warn "" err
         | None => mret tt
         end);;
      stop_services cmd stopped rest
  end.

(** [now] is the time that stamps the command [stop] reports with. *)
Definition stop (now : Time) (stopped : string -> option error) : M unit :=
  let cmd := Proto.mkCmd 0 now "agent" "" "" "" in
  log Info "Stopping cmdHandler";;
  emit (StatusUpdateRe "agent" "Stopping cmdHandler" cmd);;
  stop_handler "cmdHandler" cmdHandler (set_cmdHandler false);;
  a ← get;
  stop_services cmd stopped (services a);;
  log Info "Stopping statusHandler";;
  emit (StatusUpdateRe "agent" "Stopping statusHandler" cmd);;
  stop_handler "statusHandler" statusHandler (set_statusHandler false).

(** The locals of [Run]: the two crash counters, and whether [Run] has
    returned. *)
Record Supervisor : Type := mkSupervisor {
  cmdHandlerErrors : Z;
  statusHandlerErrors : Z;
  returned : bool
}.

(** What the branch of a command gets from outside: for Restart the
    errors, if any, of [pct.MakeStartLock], [os.Getwd], [ioutil.WriteFile]
    and of starting the script; for Stop the time and the errors of the
    managers' [Stop()]; and whether the client's send channel takes the
    replies of this iteration. *)
Record CmdEnv : Type := mkCmdEnv {
  lock_failed : option error;
  getwd_failed : option error;
  write_script_failed : option error;
  exec_failed : option error;
  now : Time;
  stopped : string -> option error;
  taken : bool
}.

(** The branches of the [select] in [Run]. *)
Inductive RunEvent : Type :=
| EvCmd (cmd : Proto.Cmd) (env : CmdEnv)
| EvCmdHandlerCrash
| EvStatusHandlerCrash
| EvClientError (err : error)
| EvConnect (connected : bool).

(** The top of the loop: the agent reports itself idle and waits in its
    [select]. *)
Definition wait : M unit :=
  log Debug "wait";; emit (StatusUpdate "agent" "Idle").

(** The start of [Run], up to the first wait. *)
Definition Run_start : M Supervisor :=
  log Debug "Run:call";;
  emit ClientStart;;
  emit GoConnect;;
  emit GoCmdHandler;;
  modify (set_cmdHandler true);;
  emit GoStatusHandler;;
  modify (set_statusHandler true);;
  log Info "Started";;
  wait;;
  mret (mkSupervisor 0 0 false).

Definition on_cmd (cmd : Proto.Cmd) (env : CmdEnv) (s : Supervisor)
    : M Supervisor :=
  let taken := taken env in
  if bool_decide (Proto.Cmd_ cmd = "Abort") then panic "Abort"
  else if bool_decide (Proto.Cmd_ cmd = "Restart") then
    log Debug "cmd:restart";;
    emit (StatusUpdateRe "agent" "Restarting" cmd);;
    emit MakeStartLock;;
    match lock_failed env with
    | Some err => reply taken (Proto.Reply_to cmd None [err]);; mret s
    | None =>
        emit Getwd;;
        match getwd_failed env with
        | Some err => reply taken (Proto.Reply_to cmd None [err])
        | None => mret tt
        end;;
        emit WriteStartScript;;
        match write_script_failed env with
        | Some err => reply taken (Proto.Reply_to cmd None [err])
        | None => mret tt
        end;;
        log Debug "Restart:sh";;
        emit ExecStart;;
        reply taken
          (Proto.Reply_to cmd None
             (match exec_failed env with Some e => [e] | None => [] end));;
        log Debug "Restart:done";;
        log Debug "Run:return";;
        mret (mkSupervisor (cmdHandlerErrors s) (statusHandlerErrors s) true)
    end
  else if bool_decide (Proto.Cmd_ cmd = "Stop") then
    log Debug "cmd:stop";;
    emit (LoggedCmd Info "Stopping" cmd);;
    emit (StatusUpdateRe "agent" "Stopping" cmd);;
    stop (now env) (stopped env);;
    reply taken (Proto.Reply_to cmd None []);;
    emit (LoggedCmd Info "Stopped" cmd);;
    emit (StatusUpdateRe "agent" "Stopped" cmd);;
    log Debug "Run:return";;
    mret (mkSupervisor (cmdHandlerErrors s) (statusHandlerErrors s) true)
  else if bool_decide (Proto.Cmd_ cmd = "Status") then
    log Debug "cmd:status";;
    emit (StatusUpdateRe "agent" "Queueing" cmd);;
    a ← get;
    (if Z.of_nat (length (statusChan a)) <? STATUS_QUEUE_SIZE
     then modify (set_statusChan (statusChan a ++ [cmd]))
     else reply taken
            (Proto.Reply_to cmd None
               [QueueFullError (Proto.Cmd_ cmd) "statusQueue" STATUS_QUEUE_SIZE]));;
    mret s
  else
    log Debug "cmd";;
    emit (StatusUpdateRe "agent" "Queueing" cmd);;
    a ← get;
    (if Z.of_nat (length (cmdChan a)) <? CMD_QUEUE_SIZE
     then modify (set_cmdChan (cmdChan a ++ [cmd]))
     else reply taken
            (Proto.Reply_to cmd None
               [QueueFullError (Proto.Cmd_ cmd) "cmdQueue" CMD_QUEUE_SIZE]));;
    mret s.

(** The handler goroutine is gone when its crash is received; it is alive
    again if the supervisor restarts it. *)
Definition on_cmdHandler_crash (s : Supervisor) : M Supervisor :=
  modify (set_cmdHandler false);;
  let cmdHandlerErrors_ := add64 (cmdHandlerErrors s) 1 in
  (if cmdHandlerErrors_ <? MAX_ERRORS then
     log Error_ "cmdHandler crashed, restarting";;
     emit GoCmdHandler;;
     modify (set_cmdHandler true)
   else log Fatal "Too many cmdHandler errors");;
  mret (mkSupervisor cmdHandlerErrors_ (statusHandlerErrors s) (returned s)).

Definition on_statusHandler_crash (s : Supervisor) : M Supervisor :=
  modify (set_statusHandler false);;
  let statusHandlerErrors_ := add64 (statusHandlerErrors s) 1 in
  (if statusHandlerErrors_ <? MAX_ERRORS then
     log Error_ "statusHandler crashed, restarting";;
     emit GoStatusHandler;;
     modify (set_statusHandler true)
   else log Fatal "Too many statusHandler errors");;
  mret (mkSupervisor (cmdHandlerErrors s) statusHandlerErrors_ (returned s)).

Definition on_connect (connected : bool) (s : Supervisor) : M Supervisor :=
  if connected then
    log Info "Connected to API";;
    mret (mkSupervisor 0 0 (returned s))
  else
    log Warn "Lost connection to API";;
    emit GoConnect;;
    mret s.

(** A crash can only be received from a handler that was running. *)
Definition enabled (ev : RunEvent) (a : Agent) : bool :=
  match ev with
  | EvCmdHandlerCrash => cmdHandler a
  | EvStatusHandlerCrash => statusHandler a
  | _ => true
  end.

(** One iteration of the loop of [Run], up to the next wait; once [Run] has
    returned nothing happens. *)
Definition Run_step (ev : RunEvent) (s : Supervisor) : M Supervisor :=
  if returned s then mret s
  else
    a ← get;
    if negb (enabled ev a) then mret s
    else
      s' ←
        match ev with
        | EvCmd cmd env => on_cmd cmd env s
        | EvCmdHandlerCrash => on_cmdHandler_crash s
        | EvStatusHandlerCrash => on_statusHandler_crash s
        | EvClientError err => log_err Warn "" err;; mret s
        | EvConnect connected => on_connect connected s
        end;
      (if returned s' then mret tt else wait);;
      mret s'.

Fixpoint Run_steps (evs : list RunEvent) (s : Supervisor) : M Supervisor :=
  match evs with
  | [] => mret s
  | ev :: rest => s' ← Run_step ev s; Run_steps rest s'
  end.

(** [Run] from its start through a list of events. *)
Definition Run (evs : list RunEvent) : M Supervisor :=
  s ← Run_start; Run_steps evs s.

(** Whether [handleSetConfig] tries to change the API key, or the API
    hostname: the field of the incoming config is set and differs from the
    current one. *)
Definition key_attempted (newConfig current : Config) : bool :=
  bool_decide (ApiKey newConfig <> "")
  && bool_decide (ApiKey newConfig <> ApiKey current).

Definition host_attempted (newConfig current : Config) : bool :=
  bool_decide (ApiHostname newConfig <> "")
  && bool_decide (ApiHostname newConfig <> ApiHostname current).

(** The connector after the attempt to change the key, if any, and the text
    of the error of that attempt. *)
Definition key_connect (newConfig current : Config) (x : API)
    : API * option string :=
  if key_attempted newConfig current
  then api_Connect x (api_Hostname x) (ApiKey newConfig) (api_AgentUuid x)
  else (x, None).

Definition host_connect (newConfig current : Config) (x : API)
    : API * option string :=
  if host_attempted newConfig current
  then api_Connect x (ApiHostname newConfig) (api_ApiKey x) (api_AgentUuid x)
  else (x, None).

End WithAPI.

Arguments mkAgent {API} _ _ _ _ _ _ _ _ _.
Arguments config {API} _.
Arguments api {API} _.
Arguments stored {API} _.
Arguments services {API} _.
Arguments cmdChan {API} _.
Arguments statusChan {API} _.
Arguments cmdHandler {API} _.
Arguments statusHandler {API} _.
Arguments trace {API} _.
Arguments set_trace {API} _ _.
Arguments NewAgent {API} _ _ _.
Arguments Run {API} _.
Arguments Run_steps {API} _ _.
Arguments Run_step {API} _ _.
Arguments Run_start {API}.

(** A scenario: a connector that holds what it was last connected with and
    refuses the API key "bad", and an agent with a config. *)
Record TestAPI : Type := mkTestAPI {
  t_Hostname : string;
  t_ApiKey : string;
  t_AgentUuid : string
}.

Definition test_Connect (x : TestAPI) (hostname apiKey agentUuid : string)
    : TestAPI * option string :=
  if bool_decide (apiKey = "bad") then (x, Some "Unauthorized")
  else (mkTestAPI hostname apiKey agentUuid, None).

Definition test_config : Config :=
  mkConfig "https://cloud-api.percona.com" "key1" "uuid1" ∅.

Definition test_agent : Agent TestAPI :=
  NewAgent (Some test_config)
    (mkTestAPI "https://cloud-api.percona.com" "key1" "uuid1") ["log"; "qan"].

Definition set_config_cmd : Proto.Cmd :=
  Proto.mkCmd 7 0 "user" "agent" "SetConfig" "".

(** An incoming config with a key the connector refuses and a new host. *)
Definition bad_key_new_host : Config :=
  mkConfig "https://new-host" "bad" "" ∅.

(** Code that does not bring a dead command handler back. *)
Definition leaves_dead {API A : Type} (c : M API A) : Prop :=
  forall a, cmdHandler a = false -> cmdHandler (c a).2 = false.

End Agent.

(* ===================================================================== *)
(** * Part II: theorems                                                   *)
(* ===================================================================== *)

(** ** The log relay *)
Section LogRelay.

Import Log.

Variable LOG_EMERGENCY LOG_WARNING LOG_DEBUG : Z.
Variable LogLevelName : Z -> string.

Variable bs : Z.
Hypothesis bs_pos : 0 < bs.

Lemma level_passes (lvl l : Z) : l <= lvl -> (lvl <? l) = false.
Proof. intros H. apply Z.ltb_ge. exact H. Qed.

(** [buffer] only touches the buffers and the lost count. *)
Lemma buffer_frame (e : LogEntry) (r r' : Relay) :
  buffer bs e r = Ret r' ->
  client r' = client r /\ offline r' = offline r /\ connected r' = connected r
  /\ logger r' = logger r /\ logChan r' = logChan r
  /\ logLevel r' = logLevel r.
Proof.
  unfold buffer. intros H.
  destruct (firstBufSize r <? bs).
  - destruct (slice_set (firstBuf r) _ _); inversion H; subst.
    repeat split; reflexivity.
  - destruct (secondBufSize r <? bs).
    + destruct (slice_set (secondBuf r) _ _); inversion H; subst.
      repeat split; reflexivity.
    + cbn in H. destruct (for_range bs _ _) as [b0| |]; cbn in H; try discriminate.
      destruct (slice_set b0 0 (Some e)); inversion H; subst.
      repeat split; reflexivity.
Qed.

Lemma publish_status_frame (r : Relay) :
  client (publish_status r) = client r
  /\ offline (publish_status r) = offline r
  /\ connected (publish_status r) = connected r
  /\ logger (publish_status r) = logger r
  /\ logChan (publish_status r) = logChan r
  /\ logLevel (publish_status r) = logLevel r.
Proof. unfold publish_status. destruct (statusChan r); repeat split; reflexivity. Qed.

(** Logging an entry and taking it from the channel while the client is down
    buffers it. *)
Lemma loop_entry_buffers (e : LogEntry) (r : Relay) (rest : list Action) :
  idle_down r -> Level e <= logLevel r ->
  run bs LOG_EMERGENCY LOG_WARNING LOG_DEBUG LogLevelName (Log e :: Loop 0 EvEntry :: rest) r =
  r' ← buffer bs e r; run bs LOG_EMERGENCY LOG_WARNING LOG_DEBUG LogLevelName rest (publish_status r').
Proof.
  intros ([cl Hc] & Ho & Hn & Hl & Hq) Hlvl. destruct r; simpl in *; subst.
  assert (Hcap : (0 <? bs * 3) = true) by (apply Z.ltb_lt; lia).
  unfold act, log_entry. cbn [logChan length].
  change (Z.of_nat 0) with 0. rewrite Hcap. unfold step, on_entry.
  cbn -[Z.ltb buffer publish_status run].
  rewrite (level_passes _ _ Hlvl).
  cbn -[Z.ltb buffer publish_status run].
  unfold set_logChan; cbn -[Z.ltb buffer publish_status run].
  destruct (buffer _ _ _); reflexivity.
Qed.

(** While the client is down, entries that pass the level go to [buffer] in
    the order they were logged. *)
Lemma run_offline (es : list LogEntry) (rest : list Action) (r : Relay) :
  idle_down r -> Forall (fun e => Level e <= logLevel r) es ->
  run bs LOG_EMERGENCY LOG_WARNING LOG_DEBUG LogLevelName
    (flat_map (fun e => [Log e; Loop 0 EvEntry]) es ++ rest) r =
  r' ← buffer_all bs es r; run bs LOG_EMERGENCY LOG_WARNING LOG_DEBUG LogLevelName rest r'.
Proof.
  revert r. induction es as [|e es IH]; intros r Hidle Hall.
  - reflexivity.
  - inversion Hall as [|? ? He Hes]; subst.
    cbn [flat_map app buffer_all].
    rewrite loop_entry_buffers by assumption.
    destruct (buffer bs e r) as [r1| |] eqn:Hb; try reflexivity.
    cbn -[run buffer_all publish_status].
    destruct (buffer_frame _ _ _ Hb) as (H1 & H2 & H3 & H4 & H5 & H6).
    destruct (publish_status_frame r1) as (P1 & P2 & P3 & P4 & P5 & P6).
    apply IH.
    + destruct Hidle as ([cl Hc] & Ho & Hn & Hl & Hq).
      repeat split; try congruence. exists cl. congruence.
    + rewrite P6, H6. exact Hes.
Qed.

End LogRelay.

(** C1, as stated, fails: with two-slot buffers and the entries A..G logged
    while the client is down, the relay does not send A, B, a lost-count
    entry for 3, F, G on reconnect. It sends A, B, the lost-count entry for 4
    and G: when the second buffer is full its two entries are thrown away
    together, so F goes with E when G arrives. *)
Lemma C1_resend_as_claimed_fails :
  Log.sent_by (Log.run 2 0 4 7 (fun _ => "")
                 (Log.offline_then_reconnect Log.seven 9) Log.test_relay)
    = Some [Log.test_entry "A"; Log.test_entry "B";
            Log.mkLogEntry 9 4 "log" "Lost 4 log entries"; Log.test_entry "G"]
  /\ Log.sent_by (Log.run 2 0 4 7 (fun _ => "")
                    (Log.offline_then_reconnect Log.seven 9) Log.test_relay)
    <> Some [Log.test_entry "A"; Log.test_entry "B";
             Log.mkLogEntry 9 4 "log" "Lost 3 log entries";
             Log.test_entry "F"; Log.test_entry "G"].
Proof. split; vm_compute; [reflexivity | discriminate]. Qed.

(** With the buffers of the source, ten slots each: of 31 entries logged
    while the client is down, the first ten and the last one are sent on
    reconnect, with a lost count of 20 in between. *)
Example resend_thirty_one :
  Log.sent_by (Log.run Log.BUFFER_SIZE_source 0 4 7 (fun _ => "")
                 (Log.offline_then_reconnect (Log.numbered 31) 9)
                 Log.source_relay)
  = Some (Log.numbered 10
          ++ [Log.mkLogEntry 9 4 "log" "Lost 20 log entries";
              Log.test_entry "31"]).
Proof. vm_compute. reflexivity. Qed.

(** C1, amended: with two-slot buffers, seven entries a..g that pass the log
    level and are taken by the loop while the client is down, the relay sends
    on reconnect exactly a, b, one "Lost 4 log entries" entry, g: the first
    buffer in order, one lost-count entry whose count is the number of
    entries dropped (c, d, e and f), then the second buffer in order. After
    that both buffers are empty and the lost count is back to 0. *)
Theorem C1_resend_after_reconnect (LOG_EMERGENCY LOG_WARNING LOG_DEBUG : Z)
    (LogLevelName : Z -> string)
    (a b c d e f g : Log.LogEntry) (lvl now : Z)
    (Hlvl : Forall (fun x => Log.Level x <= lvl) [a; b; c; d; e; f; g]) :
  exists r,
    Log.run 2 LOG_EMERGENCY LOG_WARNING LOG_DEBUG LogLevelName
      (Log.offline_then_reconnect [a; b; c; d; e; f; g] now)
      (Log.NewRelay 2 (Some (Log.mkClient [] [])) "" lvl false) = Ret r
    /\ Log.client r =
       Some (Log.mkClient [a; b; Log.lost_entry LOG_WARNING now 4; g] [])
    /\ Log.Msg (Log.lost_entry LOG_WARNING now 4) = "Lost 4 log entries"
    /\ Log.firstBuf r = [None; None] /\ Log.firstBufSize r = 0
    /\ Log.secondBuf r = [None; None] /\ Log.secondBufSize r = 0
    /\ Log.lost r = 0 /\ Log.connected r = true.
Proof.
  unfold Log.offline_then_reconnect.
  rewrite (run_offline LOG_EMERGENCY LOG_WARNING LOG_DEBUG LogLevelName 2);
    [| lia | | exact Hlvl].
  - eexists. split; [vm_compute; reflexivity |].
    repeat split; vm_compute; reflexivity.
  - repeat split; try reflexivity. eexists; reflexivity.
Qed.

Lemma C1_resend_after_reconnect_witness :
  exists r,
    Log.run 2 0 4 7 (fun _ => "") (Log.offline_then_reconnect Log.seven 9)
      Log.test_relay = Ret r
    /\ Log.client r =
       Some (Log.mkClient [Log.test_entry "A"; Log.test_entry "B";
                           Log.lost_entry 4 9 4; Log.test_entry "G"] []).
Proof.
  destruct (C1_resend_after_reconnect 0 4 7 (fun _ => "")
              (Log.test_entry "A") (Log.test_entry "B") (Log.test_entry "C")
              (Log.test_entry "D") (Log.test_entry "E") (Log.test_entry "F")
              (Log.test_entry "G") 7 9) as [r [Hr [Hc _]]].
  - repeat constructor; simpl; lia.
  - exists r. split; [exact Hr | exact Hc].
Defined.

(** ** The MySQL restart monitor *)
Section RestartMonitor.

Import Monitor.

Lemma wrap64_id (z : Z) : in_int64 z -> wrap64 z = z.
Proof.
  unfold in_int64, wrap64. intros H.
  rewrite Z.mod_small by lia. lia.
Qed.

Lemma expected_uptime (m : mysqlInstance) (now : Time) :
  in_int64 (elapsed m now) -> in_int64 (lastUptime m + elapsed m now) ->
  add64 (lastUptime m) (sub64 (Unix now) (Unix (lastUptimeCheck m))) =
  lastUptime m + elapsed m now.
Proof.
  intros H1 H2. unfold add64, sub64. fold (elapsed m now).
  rewrite (wrap64_id _ H1). apply wrap64_id, H2.
Qed.

Lemma check_result (m : mysqlInstance) (cur : Z) (now1 now2 : Time) :
  in_int64 (elapsed m now1) -> in_int64 (lastUptime m + elapsed m now1) ->
  (CheckIfMysqlRestarted m cur now1 now2).2 =
  bool_decide (cur < lastUptime m + elapsed m now1).
Proof.
  intros H1 H2. unfold CheckIfMysqlRestarted.
  rewrite (expected_uptime m now1 H1 H2).
  destruct (Z.ltb_spec cur (lastUptime m + elapsed m now1)); simpl;
    symmetry; [apply bool_decide_eq_true | apply bool_decide_eq_false]; lia.
Qed.


End RestartMonitor.

(** C2: when the int64 arithmetic does not overflow, CheckIfMysqlRestarted
    returns true exactly when the polled uptime is below the last uptime plus
    the seconds elapsed since the last check; so an uptime that fell from
    3600 to 10 is a restart (whatever time went by), 60 -> 120 after 30
    seconds is not, and 60 -> 120 after 120 seconds is. *)
Theorem C2_restart_detection (m : Monitor.mysqlInstance) (cur : Z)
    (now1 now2 : Time)
    (Hel : in_int64 (Monitor.elapsed m now1))
    (Hex : in_int64 (Monitor.lastUptime m + Monitor.elapsed m now1)) :
  ((Monitor.CheckIfMysqlRestarted m cur now1 now2).2 = true <->
     cur < Monitor.lastUptime m + Monitor.elapsed m now1)
  /\ (Monitor.lastUptime m = 3600 -> cur = 10 -> 0 <= Monitor.elapsed m now1 ->
      (Monitor.CheckIfMysqlRestarted m cur now1 now2).2 = true)
  /\ (Monitor.lastUptime m = 60 -> cur = 120 -> Monitor.elapsed m now1 = 30 ->
      (Monitor.CheckIfMysqlRestarted m cur now1 now2).2 = false)
  /\ (Monitor.lastUptime m = 60 -> cur = 120 -> Monitor.elapsed m now1 = 120 ->
      (Monitor.CheckIfMysqlRestarted m cur now1 now2).2 = true).
Proof.
  rewrite (check_result m cur now1 now2 Hel Hex).
  repeat split.
  - apply bool_decide_eq_true.
  - apply bool_decide_eq_true.
  - intros. apply bool_decide_eq_true. lia.
  - intros. apply bool_decide_eq_false. lia.
  - intros. apply bool_decide_eq_true. lia.
Qed.

Lemma C2_restart_detection_witness :
  (Monitor.CheckIfMysqlRestarted
     (Monitor.mkInstance 60 (Monitor.seconds 1000) ∅) 120
     (Monitor.seconds 1120) (Monitor.seconds 1120)).2 = true
  /\ (Monitor.CheckIfMysqlRestarted
      (Monitor.mkInstance 60 (Monitor.seconds 1000) ∅) 120
      (Monitor.seconds 1030) (Monitor.seconds 1030)).2 = false.
Proof.
  split.
  - apply (C2_restart_detection
             (Monitor.mkInstance 60 (Monitor.seconds 1000) ∅) 120
             (Monitor.seconds 1120) (Monitor.seconds 1120));
      repeat split; vm_compute; first [reflexivity | discriminate].
  - apply (C2_restart_detection
             (Monitor.mkInstance 60 (Monitor.seconds 1000) ∅) 120
             (Monitor.seconds 1030) (Monitor.seconds 1030));
      repeat split; vm_compute; first [reflexivity | discriminate].
Defined.



(** ** The performance-schema worker *)

(** C4: for the single digest row with digest
    0123456789abcdef0123456789ABCDEF01234567, CountStar 3 and timer waits
    3e12, 1e12, 2e12, 1e12 picoseconds (sum, min, max, avg), PrepareResult
    returns one class whose Id is 0123456789ABCDEF, the upper case of digest
    characters 16..31, whose Query_time is Cnt 3, Sum 3.0, Min 1.0, Max 2.0,
    Avg 1.0 in binary64, and a global class with TotalQueries =
    UniqueQueries = 1, the number of classes. *)
Theorem C4_prepare_single_row
    (AddClass : Event.GlobalClass -> Event.QueryClass -> Event.GlobalClass)
    (w : Perfschema.Worker) (text : string)
    (lock aff snt exa fj sc mp td tt : Z) (first last : Time) :
  let row :=
    Perfschema.mkDigestRow "0123456789abcdef0123456789ABCDEF01234567" text
      3000000000000 1000000000000 1000000000000 2000000000000
      lock aff snt exa fj sc mp td tt 3 first last in
  exists res class,
    (Perfschema.PrepareResult AddClass w [row]).2 = Ret res
    /\ Perfschema.Class res = [class]
    /\ Event.Id class = "0123456789ABCDEF"
    /\ Event.Id class =
       Perfschema.ToUpper (String.substring 16 16 (Perfschema.Digest row))
    /\ Event.TimeMetrics (Event.qc_Metrics class) !! "Query_time" =
       Some (Event.mkTimeStats 3 3%float 1%float 2%float 1%float)
    /\ Event.TotalQueries (Perfschema.Global res) = 1
    /\ Event.UniqueQueries (Perfschema.Global res) = 1
    /\ Z.of_nat (length (Perfschema.Class res)) = 1.
Proof.
  intros row. eexists. eexists. split; [reflexivity |].
  repeat split; vm_compute; reflexivity.
Qed.

(** ** The query-analytics manager *)

(** What the spec asks of a QAN config. *)
Lemma validate_spec (c : Qan.Config) :
  (Qan.ValidateConfig c).2 = None <->
  (Qan.CollectFrom c = "slowlog" \/ Qan.CollectFrom c = "perfschema"
   \/ Qan.CollectFrom c = "")
  /\ Qan.Start c <> [] /\ Qan.Stop c <> []
  /\ 1 <= Qan.MaxWorkers c <= 4
  /\ (1 <= Qan.Interval c <= 3600)%N
  /\ (1 <= Qan.WorkerRunTime c <= 1200)%N.
Proof.
  unfold Qan.ValidateConfig. cbn [snd].
  destruct c as [sv ii cf st sp mw iv ms ro eq wr]; cbn.
  assert (Hlen : forall (A : Type) (l : list A), length l = 0%nat <-> l = [])
    by (intros A [|x l]; split; (reflexivity || discriminate)).
  repeat case_bool_decide; cbn in *; subst; cbn in *;
    repeat match goal with
           | |- context [?a <? ?b] => destruct (Z.ltb_spec a b)
           | |- context [(?a =? ?b)%N] => destruct (N.eqb_spec a b)
           | |- context [(?a <? ?b)%N] => destruct (N.ltb_spec a b)
           | H : length _ = 0%nat |- _ => apply Hlen in H; subst
           end;
    split; intros Hgoal; try discriminate; try reflexivity;
    try (exfalso; intuition (congruence || lia));
    try (repeat split; auto; try lia; try congruence;
         intros ->; cbn in *; congruence).
Qed.

(** C3: ValidateConfig returns nil exactly when CollectFrom is "slowlog",
    "perfschema" or unset, Start and Stop are non-empty, MaxWorkers is in
    1..4, Interval in 1..3600 and WorkerRunTime in 1..1200; an unset
    CollectFrom is rewritten to "slowlog" and nothing else of the config is
    changed; any violation yields an error. *)
Theorem C3_validate_config (c : Qan.Config) :
  ((Qan.ValidateConfig c).2 = None <->
   (Qan.CollectFrom c = "slowlog" \/ Qan.CollectFrom c = "perfschema"
    \/ Qan.CollectFrom c = "")
   /\ Qan.Start c <> [] /\ Qan.Stop c <> []
   /\ 1 <= Qan.MaxWorkers c <= 4
   /\ (1 <= Qan.Interval c <= 3600)%N
   /\ (1 <= Qan.WorkerRunTime c <= 1200)%N)
  /\ (Qan.ValidateConfig c).1 =
     (if bool_decide (Qan.CollectFrom c = "")
      then Qan.set_CollectFrom "slowlog" c else c)
  /\ (Qan.CollectFrom c = "" ->
      Qan.CollectFrom (Qan.ValidateConfig c).1 = "slowlog")
  /\ ((Qan.ValidateConfig c).2 = None \/
      exists msg, (Qan.ValidateConfig c).2 = Some (ErrorString msg)).
Proof.
  split; [apply validate_spec |]. split; [reflexivity |]. split.
  - intros H. unfold Qan.ValidateConfig. cbn [fst].
    rewrite bool_decide_eq_true_2 by exact H. reflexivity.
  - unfold Qan.ValidateConfig. cbn [snd].
    repeat match goal with
           | |- context [if ?b then _ else _] =>
               destruct b; [right; eexists; reflexivity |]
           end.
    left; reflexivity.
Qed.

Lemma C3_validate_config_witness :
  (Qan.ValidateConfig
     (Qan.mkConfig "mysql" 1 "" [("slow_query_log", "ON")]
        [("slow_query_log", "OFF")] 4 3600 0 false false 1200)).2 = None
  /\ Qan.CollectFrom
       (Qan.ValidateConfig
          (Qan.mkConfig "mysql" 1 "" [("slow_query_log", "ON")]
             [("slow_query_log", "OFF")] 4 3600 0 false false 1200)).1
     = "slowlog".
Proof.
  destruct (C3_validate_config
              (Qan.mkConfig "mysql" 1 "" [("slow_query_log", "ON")]
                 [("slow_query_log", "OFF")] 4 3600 0 false false 1200))
    as (Hiff & _ & Hcf & _).
  split.
  - apply Hiff. cbn. repeat split; try lia; try discriminate. auto.
  - apply Hcf. reflexivity.
Defined.

(** Unfolding the sequencing of manager code. *)
Ltac run_M :=
  cbv beta iota zeta delta
    [mbind Qan.M_bind mret Qan.M_ret Qan.emit Qan.modify Qan.get Qan.log
     Qan.log_err Qan.panic Qan.block].

Section QanLifecycle.

Import Qan.

Lemma handle_start_running (m : Manager) (cmd : Proto.Cmd) (env : HandleEnv) :
  running m = true -> Proto.Cmd_ cmd = "StartService" ->
  Handle cmd env m =
  (Ret (Proto.Reply_to cmd None [ServiceIsRunningError "qan"]), handled cmd m).
Proof.
  intros Hrun Hcmd. unfold Handle, handled.
  rewrite Hcmd. rewrite bool_decide_eq_true_2 by reflexivity.
  run_M. cbn [running set_trace]. rewrite Hrun.
  destruct m; cbn. rewrite <- app_assoc. reflexivity.
Qed.

Lemma handle_stop_stopped (m : Manager) (cmd : Proto.Cmd) (env : HandleEnv) :
  running m = false -> Proto.Cmd_ cmd = "StopService" ->
  Handle cmd env m = (Ret (Proto.Reply_to cmd None []), handled cmd m).
Proof.
  intros Hrun Hcmd. unfold Handle, handled.
  rewrite Hcmd. rewrite bool_decide_eq_false_2 by discriminate.
  rewrite bool_decide_eq_true_2 by reflexivity.
  run_M. cbn [running set_trace]. rewrite Hrun.
  destruct m; cbn. rewrite <- app_assoc. reflexivity.
Qed.

End QanLifecycle.

(** C6: on a running manager, Start returns ServiceIsRunningError for qan and
    changes nothing, and a StartService command is answered with that error,
    whose text contains "qan is running"; the reply carries the id of the
    command, running stays true, the config and everything else but the
    published status stay as they were. *)
Theorem C6_double_start_rejected (m : Qan.Manager) (read : Qan.ReadResult)
    (env : Qan.StartEnv) (cmd : Proto.Cmd) (henv : Qan.HandleEnv)
    (other : error -> string)
    (Hrun : Qan.running m = true)
    (Hcmd : Proto.Cmd_ cmd = "StartService") :
  Qan.Start_ read env m = (Ret (Some (ServiceIsRunningError "qan")), m)
  /\ exists reply m',
       Qan.Handle cmd henv m = (Ret reply, m')
       /\ Proto.reply_Errors reply = [ServiceIsRunningError "qan"]
       /\ Contains (Proto.reply_Error other reply) "qan is running" = true
       /\ Proto.reply_Id reply = Proto.Id cmd
       /\ Qan.running m' = true
       /\ Qan.config m' = Qan.config m
       /\ m' = Qan.handled cmd m.
Proof.
  split.
  - unfold Qan.Start_. cbv [mbind Qan.M_bind Qan.get]. rewrite Hrun. reflexivity.
  - eexists. eexists. split; [apply handle_start_running; assumption |].
    repeat split; try reflexivity. exact Hrun.
Qed.

(** C9: on a stopped manager, Stop returns nil and changes nothing, and a
    StopService command is answered without error; running stays false, the
    config stays, and nothing is torn down: the only calls made are the two
    updates of the published status in Handle. *)
Theorem C9_stop_when_stopped (m : Qan.Manager) (env : Qan.ConfigureEnv)
    (cmd : Proto.Cmd) (henv : Qan.HandleEnv) (other : error -> string)
    (Hrun : Qan.running m = false)
    (Hcmd : Proto.Cmd_ cmd = "StopService") :
  Qan.Stop_ env m = (Ret None, m)
  /\ exists reply m',
       Qan.Handle cmd henv m = (Ret reply, m')
       /\ Proto.reply_Errors reply = []
       /\ Proto.reply_Error other reply = ""
       /\ Qan.running m' = false
       /\ Qan.config m' = Qan.config m
       /\ m' = Qan.handled cmd m
       /\ (exists added, Qan.trace m' = Qan.trace m ++ added
                         /\ forallb (fun e => negb (Qan.teardown e)) added = true).
Proof.
  split.
  - unfold Qan.Stop_. cbv [mbind Qan.M_bind Qan.get]. rewrite Hrun. reflexivity.
  - eexists. eexists. split; [apply handle_stop_stopped; assumption |].
    repeat split; try reflexivity; try exact Hrun.
    eexists. split; reflexivity.
Qed.

Section QanWorkers.

Import Qan.

Lemma bind_state {A B : Type} (c : M A) (k : A -> M B) (m : Manager) :
  ((c ≫= k) m).2 =
  match c m with
  | (Ret a, m') => (k a m').2
  | (_, m') => m'
  end.
Proof.
  unfold mbind, M_bind. destruct (c m) as [[a| |] m']; reflexivity.
Qed.

Lemma keeps_ret {A : Type} (a : A) : keeps (mret a : M A).
Proof. intros m. split; reflexivity. Qed.

Lemma keeps_bind {A B : Type} (c : M A) (k : A -> M B) :
  keeps c -> (forall a, keeps (k a)) -> keeps (c ≫= k).
Proof.
  intros Hc Hk m. rewrite bind_state. specialize (Hc m).
  destruct (c m) as [[a| |] m']; cbn in *; try exact Hc.
  destruct (Hk a m') as [H1 H2]. destruct Hc as [H3 H4].
  split; congruence.
Qed.

Lemma keeps_get : keeps get.
Proof. intros m. split; reflexivity. Qed.

Lemma keeps_emit (e : Effect) : keeps (emit e).
Proof. intros m. split; reflexivity. Qed.

Lemma keeps_log (l : Level) (msg : string) : keeps (log l msg).
Proof. apply keeps_emit. Qed.

Lemma keeps_log_err (l : Level) (msg : string) (e : error) :
  keeps (log_err l msg e).
Proof. apply keeps_emit. Qed.

Lemma keeps_panic {A : Type} (msg : string) : keeps (panic msg : M A).
Proof. intros m. split; reflexivity. Qed.

Lemma keeps_conn_DSN : keeps conn_DSN.
Proof. intros m. unfold conn_DSN. destruct (mysqlConn m); split; reflexivity. Qed.

Lemma keeps_oldSlowLogs (f : Manager -> gmap string Z) :
  keeps (modify (fun m => set_oldSlowLogs (f m) m)).
Proof. intros m. split; reflexivity. Qed.

Create HintDb keeps.
#[local] Hint Resolve keeps_ret keeps_get keeps_emit keeps_log keeps_log_err
  keeps_panic keeps_conn_DSN keeps_oldSlowLogs : keeps.

(** Breaking code down to its calls. *)
Ltac keeps_tac :=
  repeat first
    [ progress auto with keeps
    | apply keeps_bind; [| intros ?]
    | match goal with
      | |- keeps (match ?x with _ => _ end) => destruct x
      | |- keeps (if ?b then _ else _) => destruct b
      | |- keeps (let '(_, _) := ?x in _) => destruct x
      end ].

Lemma keeps_conn_call (e : Effect) : keeps (conn_call e).
Proof. unfold conn_call. keeps_tac. Qed.

#[local] Hint Resolve keeps_conn_call : keeps.

Lemma keeps_configureMySQL (c : Config) (env : ConfigureEnv) :
  keeps (configureMySQL c env).
Proof. unfold configureMySQL. keeps_tac. Qed.

Lemma keeps_rotateSlowLog (c : Config) (iv : Interval_) (env : RotateEnv) :
  keeps (rotateSlowLog c iv env).
Proof. unfold rotateSlowLog. keeps_tac. Qed.

Lemma keeps_reap_old_logs (logs : list (string * Z))
    (remove : string -> option error) :
  keeps (reap_old_logs logs remove).
Proof.
  induction logs as [|[file cnt] rest IH]; cbn [reap_old_logs].
  - apply keeps_ret.
  - keeps_tac.
Qed.

Lemma keeps_idle : keeps idle.
Proof. unfold idle. keeps_tac. Qed.

Lemma keeps_restarted (c : Config) (env : ConfigureEnv) :
  keeps (restarted c env).
Proof.
  unfold restarted. apply keeps_bind; [apply keeps_log |]. intros _.
  apply keeps_bind; [apply keeps_configureMySQL |]. intros [e|]; keeps_tac.
Qed.

(** What taking an interval does to the worker map: nothing, or one worker
    registered while fewer than [MaxWorkers] were. *)
Lemma new_interval_workers (c : Config) (iv : Interval_) (rot : RotateEnv)
    (w : nat) (m : Manager) :
  runLoop (new_interval c iv rot w m).2 = runLoop m
  /\ (workers (new_interval c iv rot w m).2 = workers m
      \/ (runningWorkers m < MaxWorkers c
          /\ exists iv', workers (new_interval c iv rot w m).2
                         = <[w := iv']> (workers m))).
Proof.
  unfold new_interval.
  rewrite bind_state. cbn [log emit modify fst snd].
  rewrite bind_state. cbn [get fst snd].
  rewrite bind_state. cbn [log emit modify fst snd].
  set (m1 := set_trace _ (set_trace _ m)).
  assert (Hm1 : workers m1 = workers m /\ runLoop m1 = runLoop m)
    by (split; reflexivity).
  change (runningWorkers (set_trace _ m)) with (runningWorkers m).
  destruct (Z.leb_spec (MaxWorkers c) (runningWorkers m)) as [Hfull|Hfree].
  - cbn. auto.
  - destruct Hm1 as [Hw Hr]. clearbody m1.
    rewrite bind_state.
    match goal with
    | |- context [match ?rotated m1 with _ => _ end] =>
        assert (Hk : keeps rotated)
    end.
    { destruct (_ && _); [| apply keeps_ret].
      apply keeps_bind; [apply keeps_log |]. intros _.
      apply keeps_bind; [apply keeps_rotateSlowLog |].
      intros [iv' [e|]]; keeps_tac. }
    specialize (Hk m1).
    match goal with
    | |- context [match ?rotated m1 with _ => _ end] =>
        destruct (rotated m1) as [[a| |] m2]
    end; cbn [snd] in Hk; destruct Hk as [Hw2 Hr2];
      [| split; [congruence | left; congruence] ..].
    rewrite bind_state. cbn [emit modify fst snd].
    set (m3 := set_trace _ m2).
    assert (Hm3 : workers m3 = workers m /\ runLoop m3 = runLoop m)
      by (split; cbn; congruence).
    clearbody m3. destruct Hm3 as [Hw3 Hr3].
    rewrite bind_state.
    match goal with
    | |- context [match ?perf m3 with _ => _ end] =>
        assert (Hp : keeps perf) by keeps_tac;
        specialize (Hp m3); destruct (perf m3) as [[[]| |] m4]
    end; cbn [snd] in Hp; destruct Hp as [Hw4 Hr4];
      [| split; [congruence | left; congruence] ..].
    run_M. cbn. split; [congruence |]. right. split; [exact Hfree |].
    exists a. congruence.
Qed.

Lemma worker_done_workers (rl : RunLoop) (w : nat)
    (remove : string -> option error) (m : Manager) :
  workers (worker_done rl w remove m).2 = delete w (workers m)
  /\ (runLoop m = Some rl ->
      loop_config (worker_done rl w remove m).2 = Some (rl_config rl)).
Proof.
  unfold worker_done.
  rewrite bind_state; cbn [log emit modify fst snd].
  rewrite bind_state; cbn [log emit modify fst snd].
  rewrite bind_state; cbn [get fst snd].
  rewrite bind_state; cbn [modify fst snd].
  set (m1 := set_workers _ _).
  assert (Hm1 : workers m1 = delete w (workers m) /\ runLoop m1 = runLoop m)
    by (split; reflexivity).
  clearbody m1. destruct Hm1 as [Hw Hr].
  destruct (_ !! w) as [interval|]; [| cbn; split; [exact Hw |]].
  2: { intros H. unfold loop_config. rewrite Hr, H. reflexivity. }
  rewrite bind_state.
  match goal with
  | |- context [match ?stamp m1 with _ => _ end] =>
      assert (Hs : workers (stamp m1).2 = workers m1
                   /\ (runLoop m = Some rl ->
                       loop_config (stamp m1).2 = Some (rl_config rl)))
  end.
  { destruct (After _ _); run_M; cbn; split; try reflexivity.
    intros H. unfold loop_config. rewrite Hr, H. reflexivity. }
  match goal with
  | |- context [match ?stamp m1 with _ => _ end] =>
      destruct (stamp m1) as [[[]| |] m2]
  end; cbn [snd] in Hs; destruct Hs as [Hw2 Hr2];
    [| split; [congruence | exact Hr2] ..].
  match goal with
  | |- context [(?reap m2).2] =>
      assert (Hk : keeps reap)
        by (destruct (bool_decide _); [| apply keeps_ret];
            apply keeps_bind; [apply keeps_get |];
            intros ?; apply keeps_reap_old_logs);
      destruct (Hk m2) as [Hw3 Hr3]
  end.
  split; [congruence |].
  intros H. specialize (Hr2 H). unfold loop_config in *. rewrite Hr3. exact Hr2.
Qed.

Lemma size_delete_le (w : nat) (ws : gmap nat Interval_) :
  (size (delete w ws) <= size ws)%nat.
Proof. rewrite map_size_delete. destruct (ws !! w); cbn; lia. Qed.

Lemma size_insert_le (w : nat) (iv : Interval_) (ws : gmap nat Interval_) :
  (size (<[w := iv]> ws) <= S (size ws))%nat.
Proof. rewrite map_size_insert. destruct (ws !! w); cbn; lia. Qed.

(** No iteration of the loop takes the worker map over [MaxWorkers]. *)
Lemma run_step_within (ev : RunEvent) (m : Manager) :
  within_MaxWorkers m -> within_MaxWorkers (run_step ev m).2.
Proof.
  unfold run_step. destruct (runLoop m) as [rl|] eqn:Hrl; [| auto].
  intros Hin. unfold within_MaxWorkers, loop_config in Hin.
  rewrite Hrl in Hin. cbn in Hin.
  assert (Hcrash : forall msg m', within_MaxWorkers (run_crash msg m').2).
  { intros msg m'. unfold run_crash. run_M. cbn. exact I. }
  assert (Hidle : forall m', within_MaxWorkers m' -> within_MaxWorkers (idle m').2).
  { intros m' H. destruct (keeps_idle m') as [H1 H2].
    unfold within_MaxWorkers, loop_config, runningWorkers in *.
    rewrite H1, H2. exact H. }
  destruct ev as [iv rot w | w remove | env |].
  - destruct (new_interval_workers (rl_config rl) iv rot w m) as [Hr Hw].
    destruct (new_interval _ _ _ _ m) as [[[]| |] m']; cbn [snd] in *;
      [apply Hidle | apply Hcrash |];
      unfold within_MaxWorkers, loop_config, runningWorkers in *;
      rewrite Hr, Hrl; cbn;
      (destruct Hw as [-> | [Hfree [iv' ->]]];
       [exact Hin | pose proof (size_insert_le w iv' (workers m)); lia]).
  - destruct (worker_done_workers rl w remove m) as [Hw Hr].
    specialize (Hr Hrl).
    destruct (worker_done _ _ _ m) as [[[]| |] m']; cbn [snd] in *;
      [apply Hidle | apply Hcrash |];
      unfold within_MaxWorkers, runningWorkers in *;
      rewrite Hr, Hw; pose proof (size_delete_le w (workers m)); lia.
  - destruct (keeps_restarted (rl_config rl) env m) as [Hw Hr].
    destruct (restarted _ _ m) as [[[]| |] m']; cbn [snd] in *;
      [apply Hidle | apply Hcrash |];
      unfold within_MaxWorkers, loop_config, runningWorkers in *;
      rewrite Hr, Hw, Hrl; exact Hin.
  - unfold run_stop. run_M. cbn. exact I.
Qed.

Lemma run_steps_within (evs : list RunEvent) (m : Manager) :
  within_MaxWorkers m -> within_MaxWorkers (run_steps evs m).2.
Proof.
  revert m. induction evs as [|ev rest IH]; intros m Hin; [exact Hin |].
  cbn [run_steps]. rewrite bind_state.
  pose proof (run_step_within ev m Hin) as Hstep.
  destruct (run_step ev m) as [[[]| |] m']; cbn [snd] in *; auto.
Qed.

End QanWorkers.

Section QanFirstStart.

Import Qan.

Lemma validated_MaxWorkers (c c' : Config) :
  ValidateConfig c = (c', None) -> 1 <= MaxWorkers c'.
Proof.
  intros H. pose proof (validate_spec c) as [Hv _].
  rewrite H in Hv. specialize (Hv eq_refl).
  assert (Hc : c' = (ValidateConfig c).1) by (rewrite H; reflexivity).
  subst c'. unfold ValidateConfig. cbn [fst].
  destruct (bool_decide _); cbn; lia.
Qed.

(** [start] leaves the worker map alone, and the loop it starts runs with a
    config that passed validation. *)
Lemma start_workers (c : Config) (env : StartEnv) (m : Manager) :
  workers (start c env m).2 = workers m
  /\ (runLoop (start c env m).2 = runLoop m
      \/ exists c', loop_config (start c env m).2 = Some c'
                    /\ 1 <= MaxWorkers c').
Proof.
  unfold start.
  rewrite bind_state; cbn [log emit modify fst snd].
  destruct (ValidateConfig c) as [c' [e|]] eqn:Hv.
  { run_M. cbn. auto. }
  pose proof (validated_MaxWorkers c c' Hv) as Hmax.
  destruct env as [inst added [conn done] eta].
  unfold makeMySQLConn, configureMySQL, conn_call, conn_DSN, go_run, idle.
  cbn [instance mrm_added configured eta_over_minute connected set_done].
  destruct m as [cf rn mc mi rc it ws ol rl tr].
  destruct inst as [e|dsn]; [run_M; cbn; auto |].
  destruct added as [e|]; [run_M; cbn; auto |].
  destruct conn as [e|]; [run_M; cbn; auto |].
  destruct done as [e|]; [run_M; cbn; auto |].
  destruct eta; run_M; cbn; (split; [reflexivity |]); right;
    exists c'; (split; [reflexivity | exact Hmax]).
Qed.

Lemma keeps_tame {A : Type} (c : M A) : keeps c -> tame c.
Proof. intros H m. destruct (H m). auto. Qed.

Lemma tame_bind {A B : Type} (c : M A) (k : A -> M B) :
  tame c -> (forall a, tame (k a)) -> tame (c ≫= k).
Proof.
  intros Hc Hk m. rewrite bind_state. specialize (Hc m).
  destruct (c m) as [[a| |] m']; cbn [snd] in *; try exact Hc.
  destruct (Hk a m') as [H1 H2]. destruct Hc as [H3 H4].
  split; [congruence |].
  destruct H2 as [H2 | [H2 | H2]]; [| auto ..].
  destruct H4 as [H4 | [H4 | (c' & H4 & Hmax)]].
  - left; congruence.
  - right; left; congruence.
  - right; right. exists c'. split; [| exact Hmax].
    unfold loop_config in *. rewrite H2. exact H4.
Qed.

Lemma tame_start (c : Config) (env : StartEnv) : tame (start c env).
Proof.
  intros m. destruct (start_workers c env m) as [H1 [H2 | H2]]; auto.
Qed.

Lemma keeps_fields (f : Manager -> Manager) :
  (forall m, workers (f m) = workers m) ->
  (forall m, runLoop (f m) = runLoop m) ->
  keeps (modify f).
Proof. intros H1 H2 m. split; cbn; auto. Qed.

Lemma tame_run_stop : tame run_stop.
Proof. intros m. unfold run_stop. run_M. cbn. auto. Qed.

Create HintDb tame.
#[local] Hint Resolve keeps_ret keeps_get keeps_emit keeps_log keeps_log_err
  keeps_panic keeps_conn_DSN keeps_conn_call : tame.

(** Breaking code down to its calls, up to starting and stopping [run]. *)
Ltac tame_tac :=
  repeat first
    [ apply tame_start
    | apply tame_run_stop
    | apply keeps_tame; first
        [ progress auto with tame
        | apply keeps_fields; intros []; reflexivity
        | intros ?; split; reflexivity ]
    | apply tame_bind; [| intros ?]
    | match goal with
      | |- tame (match ?x with _ => _ end) => destruct x
      | |- tame (if ?b then _ else _) => destruct b
      end ].

Lemma tame_stop (env : ConfigureEnv) : tame (stop env).
Proof. unfold stop, sync_stop_wait. tame_tac. Qed.

Lemma tame_Start (read : ReadResult) (env : StartEnv) : tame (Start_ read env).
Proof. unfold Start_. tame_tac. Qed.

Lemma tame_Stop (env : ConfigureEnv) : tame (Stop_ env).
Proof. unfold Stop_. tame_tac. Qed.

Lemma tame_Handle (cmd : Proto.Cmd) (env : HandleEnv) : tame (Handle cmd env).
Proof. unfold Handle, GetConfig. tame_tac. Qed.

(** On a manager with no worker and no loop, code that is tame ends within
    [MaxWorkers]. *)
Lemma tame_within {A : Type} (c : M A) (m : Manager) :
  tame c -> workers m = ∅ -> runLoop m = None -> within_MaxWorkers (c m).2.
Proof.
  intros Hc Hw Hr. destruct (Hc m) as [H1 H2].
  unfold within_MaxWorkers, loop_config, runningWorkers in *.
  rewrite H1, Hw, map_size_empty.
  destruct H2 as [-> | [-> | (c' & -> & Hmax)]];
    [rewrite Hr; exact I | exact I | lia].
Qed.

(** An interval that finds the workers all busy is dropped: all the loop
    does is log two debug lines and the warning, and report itself idle. *)
Lemma busy_interval_dropped (m : Manager) (rl : RunLoop) (iv : Interval_)
    (rot : RotateEnv) (w : nat) :
  runLoop m = Some rl -> MaxWorkers (rl_config rl) <= runningWorkers m ->
  run_step (EvInterval iv rot w) m =
  (Ret tt,
   set_trace
     (trace m ++
      [Logged Debug ("run:interval:" +:+ Sprintf_d (Number iv)) None;
       Logged Debug (Sprintf_d (runningWorkers m) +:+ " workers running") None;
       Logged Warn "All workers busy, interval dropped" None;
       Logged Debug "run:idle" None;
       StatusUpdate "qan-parser"
         ("Idle (" +:+ Sprintf_d (runningWorkers m) +:+ " of " +:+
          Sprintf_d (MaxWorkers (rl_config rl)) +:+ " running)")]) m).
Proof.
  intros Hrl Hfull. apply Z.leb_le in Hfull.
  unfold run_step. rewrite Hrl.
  unfold new_interval, idle. run_M.
  change (runningWorkers (set_trace _ m)) with (runningWorkers m).
  rewrite Hfull.
  destruct m; cbn in *. subst. cbn. rewrite <- !app_assoc. reflexivity.
Qed.

End QanFirstStart.

(** C5, as stated, fails: both configs pass validation, yet after the
    service was started with MaxWorkers 2, took two intervals, and was
    stopped and started again with MaxWorkers 1 while the two workers were
    still running, the loop runs with MaxWorkers 1 and the worker map holds
    2 workers. Stop does not clear the map. *)
Lemma C5_workers_exceed_after_restart :
  Qan.valid (Qan.test_config 2) /\ Qan.valid (Qan.test_config 1)
  /\ (Qan.acts Qan.restart_with_less_room Qan.NewManager).1 = Ret tt
  /\ Qan.running (Qan.acts Qan.restart_with_less_room Qan.NewManager).2 = true
  /\ Qan.loop_config (Qan.acts Qan.restart_with_less_room Qan.NewManager).2
     = Some (Qan.test_config 1)
  /\ Qan.runningWorkers (Qan.acts Qan.restart_with_less_room Qan.NewManager).2
     = 2
  /\ ~ Qan.within_MaxWorkers
         (Qan.acts Qan.restart_with_less_room Qan.NewManager).2.
Proof.
  repeat split; try (vm_compute; reflexivity).
  vm_compute. intros H. apply H. reflexivity.
Qed.

(** What the restart scenario leaves behind: the loop runs with the second
    config while the two workers of the first run are still registered. *)
Example restart_trace :
  (Qan.acts Qan.restart_with_less_room Qan.NewManager).1 = Ret tt
  /\ Qan.runningWorkers (Qan.acts Qan.restart_with_less_room Qan.NewManager).2 = 2
  /\ Qan.loop_config (Qan.acts Qan.restart_with_less_room Qan.NewManager).2
     = Some (Qan.test_config 1).
Proof. vm_compute. repeat split; reflexivity. Qed.

(** C5, amended: within one run of the loop, if the worker map holds at most
    MaxWorkers workers when the loop starts, it never holds more, whatever
    the loop goes through; this is so for the loop started by the first
    StartService or Start of a new manager, whose config passed validation.
    An interval that arrives while at least MaxWorkers workers are
    registered is dropped: the loop logs the warning and goes back to
    waiting, the manager is otherwise unchanged, no worker is made or
    started, and nothing keeps the interval. *)
Theorem C5_worker_admission :
  (forall (m : Qan.Manager) (evs : list Qan.RunEvent),
     Qan.within_MaxWorkers m ->
     Qan.within_MaxWorkers (Qan.run_steps evs m).2)
  /\ (forall (cmd : Proto.Cmd) (env : Qan.HandleEnv) (evs : list Qan.RunEvent),
       Qan.within_MaxWorkers
         (Qan.run_steps evs (Qan.Handle cmd env Qan.NewManager).2).2)
  /\ (forall (read : Qan.ReadResult) (env : Qan.StartEnv)
        (evs : list Qan.RunEvent),
       Qan.within_MaxWorkers
         (Qan.run_steps evs (Qan.Start_ read env Qan.NewManager).2).2)
  /\ (forall (m : Qan.Manager) (rl : Qan.RunLoop) (iv : Qan.Interval_)
        (rot : Qan.RotateEnv) (w : nat),
       Qan.runLoop m = Some rl ->
       Qan.MaxWorkers (Qan.rl_config rl) <= Qan.runningWorkers m ->
       Qan.run_step (Qan.EvInterval iv rot w) m =
       (Ret tt,
        Qan.set_trace
          (Qan.trace m ++
           [Qan.Logged Qan.Debug
              ("run:interval:" +:+ Sprintf_d (Qan.Number iv)) None;
            Qan.Logged Qan.Debug
              (Sprintf_d (Qan.runningWorkers m) +:+ " workers running") None;
            Qan.Logged Qan.Warn "All workers busy, interval dropped" None;
            Qan.Logged Qan.Debug "run:idle" None;
            Qan.StatusUpdate "qan-parser"
              ("Idle (" +:+ Sprintf_d (Qan.runningWorkers m) +:+ " of " +:+
               Sprintf_d (Qan.MaxWorkers (Qan.rl_config rl)) +:+ " running)")])
          m)).
Proof.
  split; [exact (fun m evs => run_steps_within evs m) |].
  split; [| split].
  - intros cmd env evs. apply run_steps_within.
    apply tame_within; [apply tame_Handle | reflexivity | reflexivity].
  - intros read env evs. apply run_steps_within.
    apply tame_within; [apply tame_Start | reflexivity | reflexivity].
  - intros m rl iv rot w. apply busy_interval_dropped.
Qed.

Lemma C5_worker_admission_witness :
  Qan.within_MaxWorkers
    (Qan.run_steps [Qan.EvInterval (Qan.minute 3) Qan.no_rotation 3%nat]
       Qan.two_busy).2
  /\ Qan.workers
       (Qan.run_step (Qan.EvInterval (Qan.minute 3) Qan.no_rotation 3%nat)
          Qan.two_busy).2
     = Qan.workers Qan.two_busy.
Proof.
  destruct C5_worker_admission as (Hinv & _ & _ & Hdrop).
  split.
  - apply Hinv. vm_compute. discriminate.
  - rewrite (Hdrop Qan.two_busy
               (Qan.mkRunLoop (Qan.test_config 2) Qan.zeroTime)).
    + reflexivity.
    + vm_compute. reflexivity.
    + vm_compute. discriminate.
Defined.

Lemma C6_double_start_rejected_witness :
  (Qan.Handle Qan.start_cmd (Qan.handle_well (Qan.test_config 2))
     Qan.NewManager).1 = Ret (Proto.Reply_to Qan.start_cmd None [])
  /\ exists reply m',
       Qan.Handle Qan.start_cmd (Qan.handle_well (Qan.test_config 2))
         Qan.started = (Ret reply, m')
       /\ Proto.reply_Errors reply = [ServiceIsRunningError "qan"]
       /\ Proto.reply_Error (fun _ => "") reply = "qan is running".
Proof.
  split; [vm_compute; reflexivity |].
  destruct (C6_double_start_rejected Qan.started
              (Qan.ReadOk (Qan.test_config 2)) Qan.start_well Qan.start_cmd
              (Qan.handle_well (Qan.test_config 2)) (fun _ => ""))
    as (_ & reply & m' & H & Herr & _ & _ & _ & _ & _).
  - vm_compute. reflexivity.
  - reflexivity.
  - exists reply, m'. split; [exact H |]. split; [exact Herr |].
    unfold Proto.reply_Error. rewrite Herr. reflexivity.
Defined.

Lemma C9_stop_when_stopped_witness :
  Qan.Stop_ Qan.all_well Qan.NewManager = (Ret None, Qan.NewManager)
  /\ exists reply m',
       Qan.Handle Qan.stop_cmd (Qan.handle_well (Qan.test_config 2))
         Qan.NewManager = (Ret reply, m')
       /\ Proto.reply_Errors reply = []
       /\ Qan.running m' = false.
Proof.
  destruct (C9_stop_when_stopped Qan.NewManager Qan.all_well Qan.stop_cmd
              (Qan.handle_well (Qan.test_config 2)) (fun _ => ""))
    as (Hstop & reply & m' & H & Herr & _ & Hrun & _).
  - reflexivity.
  - reflexivity.
  - split; [exact Hstop |]. exists reply, m'. auto.
Defined.

(** ** The agent supervisor *)

(** Unfolding the sequencing of agent code. *)
Ltac run_A :=
  cbv beta iota zeta delta
    [mbind Agent.M_bind mret Agent.M_ret Agent.emit Agent.modify Agent.get
     Agent.log Agent.log_err Agent.panic Agent.block].

(** C8: for every incoming config, handleSetConfig on an agent with a
    current config returns the merged config and a list of errors. A field,
    ApiKey or ApiHostname, that is empty or equal to the current value stays
    as it is in the merged config, and so do AgentUuid and Links; a field
    that is set and differs is changed when the API connector accepts the
    new value; every failed attempt (to connect with the new key, to connect
    to the new host, to write the config file) adds exactly one error, in
    that order. The merged config is installed as the agent's config
    whatever failed, and it is the stored config once the write succeeds. *)
Theorem C8_set_config_partial (API : Type)
    (api_Hostname api_ApiKey api_AgentUuid : API -> string)
    (api_Connect : API -> string -> string -> string -> API * option string)
    (cmd : Proto.Cmd) (newConfig current : Agent.Config)
    (write : option string) (a : Agent.Agent API)
    (Hcfg : Agent.config a = Some current) :
  let kc :=
    Agent.key_connect API api_Hostname api_AgentUuid api_Connect
      newConfig current (Agent.api a) in
  let hc :=
    Agent.host_connect API api_ApiKey api_AgentUuid api_Connect
      newConfig current kc.1 in
  exists final errs a',
    Agent.handleSetConfig API api_Hostname api_ApiKey api_AgentUuid
      api_Connect cmd (Agent.mkSetConfigEnv (inr newConfig) write) a
    = (Ret (Some final, errs), a')
    /\ (Agent.ApiKey newConfig = ""
        \/ Agent.ApiKey newConfig = Agent.ApiKey current ->
        Agent.ApiKey final = Agent.ApiKey current)
    /\ (Agent.ApiHostname newConfig = ""
        \/ Agent.ApiHostname newConfig = Agent.ApiHostname current ->
        Agent.ApiHostname final = Agent.ApiHostname current)
    /\ Agent.AgentUuid final = Agent.AgentUuid current
    /\ Agent.Links final = Agent.Links current
    /\ Agent.ApiKey final =
       (if Agent.key_attempted newConfig current && bool_decide (kc.2 = None)
        then Agent.ApiKey newConfig else Agent.ApiKey current)
    /\ Agent.ApiHostname final =
       (if Agent.host_attempted newConfig current && bool_decide (hc.2 = None)
        then Agent.ApiHostname newConfig else Agent.ApiHostname current)
    /\ errs =
       Qan.opt_list
         ((fun t => ErrorString ("agent.api.Connect:ApiKey:" +:+ t)) <$> kc.2)
       ++ Qan.opt_list
            ((fun t => ErrorString ("agent.api.Connect:ApiHostname:" +:+ t))
               <$> hc.2)
       ++ Qan.opt_list
            ((fun t => ErrorString ("agent.WriteConfig:" +:+ t)) <$> write)
    /\ Agent.config a' = Some final
    /\ Agent.api a' = hc.1
    /\ (write = None -> Agent.stored a' = Some final)
    /\ (write <> None -> Agent.stored a' = Agent.stored a).
Proof.
  intros kc hc. subst kc hc.
  unfold Agent.handleSetConfig, Agent.change_ApiKey, Agent.change_ApiHostname,
    Agent.key_connect, Agent.host_connect, Agent.key_attempted,
    Agent.host_attempted.
  destruct a as [cf x st sv cc sc ch sh tr]. cbn in Hcfg. subst cf.
  run_A.
  repeat (cbn [Agent.config Agent.api Agent.set_trace Agent.unmarshalled
               Agent.write_failed Agent.set_api Agent.trace Agent.ApiHostname
               Agent.ApiKey Agent.with_ApiKey Agent.with_ApiHostname
               andb fst snd];
          match goal with
          | |- context [bool_decide ?P] => destruct (bool_decide P) eqn:?
          | |- context [api_Connect ?y ?h ?k ?u] =>
              destruct (api_Connect y h k u) as [? [?|]] eqn:?
          end);
  destruct write as [tw|];
  cbn; eexists; eexists; eexists; (split; [reflexivity |]);
  cbn;
  repeat match goal with
         | H : bool_decide _ = true |- _ => apply bool_decide_eq_true in H
         | H : bool_decide _ = false |- _ => apply bool_decide_eq_false in H
         end;
  cbn [fst snd] in *;
  repeat match goal with
         | H : ~ (?u <> ?v) |- _ => apply dec_stable in H
         | H : api_Connect ?y ?h ?k ?u = _,
           H' : context [api_Connect ?y ?h ?k ?u] |- _ =>
             rewrite H in H'; cbn [fst snd] in H'
         end;
  repeat split; try reflexivity; try congruence;
  try (intros [|]; congruence).
Qed.

Lemma C8_set_config_partial_witness :
  exists final errs a',
    Agent.handleSetConfig Agent.TestAPI Agent.t_Hostname Agent.t_ApiKey
      Agent.t_AgentUuid Agent.test_Connect Agent.set_config_cmd
      (Agent.mkSetConfigEnv (inr Agent.bad_key_new_host) None)
      Agent.test_agent
    = (Ret (Some final, errs), a')
    /\ errs = [ErrorString "agent.api.Connect:ApiKey:Unauthorized"]
    /\ Agent.ApiKey final = "key1"
    /\ Agent.ApiHostname final = "https://new-host"
    /\ Agent.config a' = Some final
    /\ Agent.stored a' = Some final.
Proof.
  destruct (C8_set_config_partial Agent.TestAPI Agent.t_Hostname
              Agent.t_ApiKey Agent.t_AgentUuid Agent.test_Connect
              Agent.set_config_cmd Agent.bad_key_new_host Agent.test_config
              None Agent.test_agent eq_refl)
    as (final & errs & a' & H & _ & _ & _ & _ & Hk & Hh & He & Hc & _ & Hs & _).
  exists final, errs, a'.
  split; [exact H |]. split; [rewrite He; vm_compute; reflexivity |].
  split; [rewrite Hk; vm_compute; reflexivity |].
  split; [rewrite Hh; vm_compute; reflexivity |].
  split; [exact Hc | apply Hs; reflexivity].
Defined.

Section CrashBudget.

Import Agent.

Variable API : Type.

Lemma leaves_dead_ret {A : Type} (x : A) : leaves_dead (mret x : M API A).
Proof. intros a H. exact H. Qed.

Lemma leaves_dead_bind {A B : Type} (c : M API A) (k : A -> M API B) :
  leaves_dead c -> (forall x, leaves_dead (k x)) -> leaves_dead (c ≫= k).
Proof.
  intros Hc Hk a H. unfold mbind, M_bind. specialize (Hc a H).
  destruct (c a) as [[x| |] a']; cbn [snd] in *; auto.
  apply Hk, Hc.
Qed.

Lemma leaves_dead_fields {A : Type} (c : M API A) :
  (forall a, cmdHandler (c a).2 = cmdHandler a) -> leaves_dead c.
Proof. intros Hc a H. rewrite Hc. exact H. Qed.

(** Breaking agent code down to its calls. *)
Ltac dead_tac :=
  repeat first
    [ apply leaves_dead_ret
    | apply leaves_dead_fields; intros []; reflexivity
    | apply leaves_dead_bind; [| intros ?]
    | match goal with
      | |- leaves_dead (match ?x with _ => _ end) => destruct x
      | |- leaves_dead (if ?b then _ else _) => destruct b eqn:?
      end ].

Lemma leaves_dead_emit (e : Effect) : leaves_dead (emit API e).
Proof. dead_tac. Qed.







End CrashBudget.

